(** * pycox.datasets.from_rdatasets: the Rdatasets survival loaders

    A shallow embedding of [src/pycox/datasets/from_rdatasets.py].  The
    module is a thin layer over pandas, so the development starts with a
    small model of the pandas objects the code touches (cells, Series,
    DataFrame, the exceptions the calls raise), then gives the registry
    lookup and the four loader classes, and finally the properties.

    The tables the loaders see come from [pd.read_csv] through a feather
    file: their column labels are strings and pairwise distinct
    ([read_csv] renames a repeated header), their columns have one length
    and their index is the default one.  Selecting a column by its label
    is modelled for such tables; statements that follow a single column
    through a transform assume distinct labels. *)

From Stdlib Require Import ZArith Bool List Lia.
From Stdlib Require Import Floats.SpecFloat.
From stdpp Require Import base option strings list gmap.

Local Open Scope string_scope.
Local Open Scope Z_scope.
Local Open Scope list_scope.

(** ** Python exceptions and the error monad *)

Inductive exn : Type :=
  | KeyError (labels : list string)     (* a column or index label is absent *)
  | ValueError (msg : string)
  | TypeError (msg : string)
  | AttributeError (attr : string)
  | URLError (url : string).            (* the HTTP GET of [pd.read_csv] failed *)

Inductive result (A : Type) : Type :=
  | Ok (a : A)
  | Raise (e : exn).
Arguments Ok {A} a.
Arguments Raise {A} e.

#[global] Instance result_ret : MRet result := fun A a => Ok a.
#[global] Instance result_bind : MBind result := fun A B f m =>
  match m with
  | Ok a => f a
  | Raise e => Raise e
  end.

(** A [for] loop whose body may raise: the first exception leaves the loop. *)
Fixpoint for_each {A S : Type} (body : S -> A -> result S) (xs : list A) (s : S)
  : result S :=
  match xs with
  | [] => Ok s
  | x :: xs' => s' ← body s x; for_each body xs' s'
  end.

(** Code with effects runs in a state and error monad; an exception leaves
    the state as it was when raised. *)
Definition stateT (S A : Type) : Type := S -> result A * S.

#[global] Instance stateT_ret {S} : MRet (stateT S) := fun A a s => (Ok a, s).
#[global] Instance stateT_bind {S} : MBind (stateT S) := fun A B f m s =>
  match m s with
  | (Ok a, s') => f a s'
  | (Raise e, s') => (Raise e, s')
  end.

Definition raise {S A : Type} (e : exn) : stateT S A := fun s => (Raise e, s).
Definition lift {S A : Type} (r : result A) : stateT S A := fun s => (r, s).

(** A [for] loop in the monad. *)
Fixpoint for_m {S A : Type} (body : A -> stateT S unit) (xs : list A)
  : stateT S unit :=
  match xs with
  | [] => mret tt
  | x :: xs' => body x;; for_m body xs'
  end.

(** ** Floating point: IEEE 754 binary64 and binary32 over [spec_float] *)

Definition f64_of_Z (z : Z) : spec_float := binary_normalize 53 1024 z 0 false.
Definition f32_of_Z (z : Z) : spec_float := binary_normalize 24 128 z 0 false.

(** Rounding of a float to binary32, to nearest, ties to even. *)
Definition f32_round (f : spec_float) : spec_float :=
  match f with
  | S754_finite s m e => binary_round 24 128 s m e
  | _ => f
  end.

Definition is_nan (f : spec_float) : bool :=
  match f with
  | S754_nan => true
  | _ => false
  end.

(** Python's [float(s)] on a string: [None] when it raises [ValueError].
    The grammar of decimal literals is numpy's and Python's, not this
    module's, and is left open. *)
Class PyFloat := float_of_string : string -> option spec_float.

(** Two's complement wrap-around of int64 arithmetic (numpy does not check). *)
Definition wrap64 (z : Z) : Z := (z + 2 ^ 63) mod 2 ^ 64 - 2 ^ 63.

(** ** Cells, Series and DataFrame

    A cell is one Python scalar held in a column; [CFloat S754_nan] is
    pandas' NaN and [CNone] the [None] that [read_feather] puts in a string
    column for a missing entry.  A Series carries its dtype next to its
    values; a DataFrame is its row index and its columns in order. *)

Inductive dtype : Type :=
  | int64 | float64 | bool_ | object_ | category | float32.

Inductive cell : Type :=
  | CInt (z : Z)
  | CFloat (f : spec_float)
  | CBool (b : bool)
  | CStr (s : string)
  | CNone.

Record Series : Type := mkSeries { s_dtype : dtype; s_values : list cell }.

Record DataFrame : Type :=
  mkDataFrame { index : list cell; columns : list (string * Series) }.

#[global] Instance dtype_eq_dec : EqDecision dtype.
Proof. solve_decision. Defined.
#[global] Instance spec_float_eq_dec : EqDecision spec_float.
Proof. solve_decision. Defined.
#[global] Instance cell_eq_dec : EqDecision cell.
Proof. solve_decision. Defined.
#[global] Instance Series_eq_dec : EqDecision Series.
Proof. solve_decision. Defined.
#[global] Instance DataFrame_eq_dec : EqDecision DataFrame.
Proof. solve_decision. Defined.
#[global] Instance exn_eq_dec : EqDecision exn.
Proof. solve_decision. Defined.

(** [df.columns]: the column labels, in order. *)
Definition column_names (df : DataFrame) : list string := (columns df).*1.

(** [len(df)]. *)
Definition nrows (df : DataFrame) : nat := length (index df).

(** [pd.RangeIndex(n)], the default index of [read_csv] and [read_feather]. *)
Definition range_index (n : nat) : list cell :=
  (fun i => CInt (Z.of_nat i)) <$> seq 0 n.

Fixpoint lookup_col (name : string) (cols : list (string * Series))
  : option Series :=
  match cols with
  | [] => None
  | (n, s) :: cols' => if decide (n = name) then Some s else lookup_col name cols'
  end.

(** [df[name]]. *)
Definition getitem (df : DataFrame) (name : string) : result Series :=
  match lookup_col name (columns df) with
  | Some s => Ok s
  | None => Raise (KeyError [name])
  end.

(** [Index.drop(labels)]: every label has to be present. *)
Definition index_drop (labels : list string) (names : list string)
  : result (list string) :=
  match filter (fun l => l ∉ names) labels with
  | [] => Ok (filter (fun n => n ∉ labels) names)
  | missing => Raise (KeyError missing)
  end.

(** [df.drop(labels, axis=1)]: a new frame without the labelled columns;
    [KeyError] when a label is not a column. *)
Definition drop (labels : list string) (df : DataFrame) : result DataFrame :=
  match filter (fun l => l ∉ column_names df) labels with
  | [] => Ok {| index := index df;
                columns := filter (fun c => c.1 ∉ labels) (columns df) |}
  | missing => Raise (KeyError missing)
  end.

Definition cell_isna (c : cell) : bool :=
  match c with
  | CNone => true
  | CFloat f => is_nan f
  | _ => false
  end.

(** [s.isna()]. *)
Definition isna (s : Series) : Series :=
  mkSeries bool_ ((fun c => CBool (cell_isna c)) <$> s_values s).

(** [s == b] for a Python bool [b]. *)
Definition cell_eq_bool (b : bool) (c : cell) : bool :=
  match c with
  | CBool x => eqb x b
  | CInt z => z =? Z.b2z b
  | CFloat f => SFeqb f (f64_of_Z (Z.b2z b))
  | CStr _ | CNone => false
  end.

Definition eq_bool (s : Series) (b : bool) : Series :=
  mkSeries bool_ ((fun c => CBool (cell_eq_bool b c)) <$> s_values s).

(** [s == v] for a Python str [v]: only an equal string compares equal. *)
Definition cell_eq_str (v : string) (c : cell) : bool :=
  match c with
  | CStr x => bool_decide (x = v)
  | _ => false
  end.

Definition eq_str (s : Series) (v : string) : Series :=
  mkSeries bool_ ((fun c => CBool (cell_eq_str v c)) <$> s_values s).

(** Rows picked by a boolean mask, positionally (mask and frame share
    their index in every use below). *)
Fixpoint select {A : Type} (mask : list cell) (l : list A) : list A :=
  match mask, l with
  | m :: mask', x :: l' =>
      if decide (m = CBool true) then x :: select mask' l' else select mask' l'
  | _, _ => []
  end.

(** [df.loc[mask]] for a boolean Series [mask]. *)
Definition loc_mask (df : DataFrame) (mask : Series) : DataFrame :=
  {| index := select (s_values mask) (index df);
     columns := (fun c => (c.1, mkSeries (s_dtype c.2)
                                  (select (s_values mask) (s_values c.2))))
                <$> columns df |}.

(** [df.reset_index(drop=True)]. *)
Definition reset_index (df : DataFrame) : DataFrame :=
  {| index := range_index (nrows df); columns := columns df |}.

(** [df[name] = s]: an existing column is replaced where it stands, a new
    one is appended.  [s] is always built from [df] itself, so its index
    is the frame's and the assignment is positional. *)
Definition setitem (df : DataFrame) (name : string) (s : Series) : DataFrame :=
  {| index := index df;
     columns :=
       if decide (name ∈ column_names df)
       then (fun c => if decide (c.1 = name) then (name, s) else c) <$> columns df
       else columns df ++ [(name, s)] |}.

(** [df.assign(k=v, ...)]: on a copy, [data[k] = v(data)] for each keyword
    in turn (a non-callable [v] is a constant function). *)
Definition assign (kwargs : list (string * (DataFrame -> result Series)))
    (df : DataFrame) : result DataFrame :=
  for_each (fun data kv => s ← kv.2 data; Ok (setitem data kv.1 s)) kwargs df.

(** [s.astype('category')]: the values stay, the dtype changes. *)
Definition astype_category (s : Series) : Series :=
  mkSeries category (s_values s).

(** One cell under [astype('float32')]. *)
Definition cell_to_float32 `{PyFloat} (c : cell) : result cell :=
  match c with
  | CInt z => Ok (CFloat (f32_of_Z z))
  | CFloat f => Ok (CFloat (f32_round f))
  | CBool b => Ok (CFloat (f32_of_Z (Z.b2z b)))
  | CStr s =>
      match float_of_string s with
      | Some f => Ok (CFloat (f32_round f))
      | None => Raise (ValueError "could not convert string to float")
      end
  | CNone => Ok (CFloat S754_nan)
  end.

(** [s.astype('float32')]. *)
Definition astype_float32 `{PyFloat} (s : Series) : result Series :=
  vs ← mapM cell_to_float32 (s_values s); Ok (mkSeries float32 vs).

(** One cell of [s - k] for a Python int [k], in a column of dtype [dt]. *)
Definition cell_sub (dt : dtype) (k : Z) (c : cell) : result cell :=
  match c with
  | CInt z => Ok (CInt (if decide (dt = object_) then z - k else wrap64 (z - k)))
  | CBool b => Ok (CInt (Z.b2z b - k))
  | CFloat f =>
      Ok (CFloat (if decide (dt = float32)
                  then SFsub 24 128 f (f32_of_Z k)
                  else SFsub 53 1024 f (f64_of_Z k)))
  | CStr _ => Raise (TypeError "unsupported operand type(s) for -: 'str' and 'int'")
  | CNone => Raise (TypeError "unsupported operand type(s) for -: 'NoneType' and 'int'")
  end.

(** [s - k]. *)
Definition sub_scalar (s : Series) (k : Z) : result Series :=
  match s_dtype s with
  | category =>
      Raise (TypeError "unsupported operand type(s) for -: 'Categorical' and 'int'")
  | dt =>
      vs ← mapM (cell_sub dt k) (s_values s);
      Ok (mkSeries (if decide (dt = bool_) then int64 else dt) vs)
  end.

(** ** State: the web, the cache directory and the loader object

    [pd.read_csv(url)] reads the web, [df.to_feather(path)] writes the
    cache directory, and [_download] stores the registry row in
    [self.info].  Code that does this runs in the state and error monad
    over [world]. *)

(** What [datasets.loc[label]] evaluates to: the row as a Series when the
    label occurs once in the index, the sub-frame when it occurs more often. *)
Inductive loc_result : Type :=
  | LocRow (row : list (string * cell))
  | LocFrame (rows : DataFrame).

Record world : Type := mkWorld {
  web : gmap string DataFrame;        (* URL to the CSV it serves, parsed *)
  files : gmap string DataFrame;      (* path to the feather file at it *)
  self_info : option loc_result       (* the loader's [self.info] *)
}.

Abbreviation M := (stateT world).

(** [pd.read_csv(filepath_or_buffer)]: only a str is a URL. *)
Definition read_csv (filepath_or_buffer : cell + Series) : M DataFrame :=
  match filepath_or_buffer with
  | inl (CStr url) =>
      fun w => (match web w !! url with
                | Some df => Ok df
                | None => Raise (URLError url)
                end, w)
  | _ => raise (ValueError "Invalid file path or buffer object type")
  end.

(** [df.to_feather(path)]: feather refuses a frame whose index is not the
    default one; the file at [path] is created or replaced. *)
Definition to_feather (df : DataFrame) (path : string) : M unit :=
  if decide (index df = range_index (nrows df))
  then fun w => (Ok (), {| web := web w; files := <[path := df]> (files w);
                            self_info := self_info w |})
  else raise (ValueError "feather does not support serializing a non-default index").

(** [self.info = info]. *)
Definition set_info (info : loc_result) : M unit :=
  fun w => (Ok (), {| web := web w; files := files w; self_info := Some info |}).

(** [df.set_index(key)]: the column becomes the index and leaves the columns. *)
Definition set_index (key : string) (df : DataFrame) : result DataFrame :=
  c ← getitem df key;
  Ok {| index := s_values c;
        columns := filter (fun c => c.1 ≠ key) (columns df) |}.

(** [df.loc[label]] on the rows. *)
Definition loc_label (df : DataFrame) (label : cell) : result loc_result :=
  let hit := mkSeries bool_ ((fun l => CBool (bool_decide (l = label))) <$> index df) in
  let rows := loc_mask df hit in
  match index rows with
  | [] => Raise (KeyError [match label with CStr s => s | _ => "" end])
  | [_] => Ok (LocRow ((fun c => (c.1, default CNone (head (s_values c.2))))
                       <$> columns rows))
  | _ => Ok (LocFrame rows)
  end.

(** [info.CSV]: the entry of a row, the column of a frame. *)
Definition getattr_CSV (info : loc_result) : result (cell + Series) :=
  match info with
  | LocRow row =>
      match list_find (fun kv => kv.1 = "CSV") row with
      | Some (_, (_, v)) => Ok (inl v)
      | None => Raise (AttributeError "CSV")
      end
  | LocFrame rows =>
      match lookup_col "CSV" (columns rows) with
      | Some s => Ok (inr s)
      | None => Raise (AttributeError "CSV")
      end
  end.

Definition registry_url : string :=
  "https://raw.githubusercontent.com/vincentarelbundock/Rdatasets/master/datasets.csv".

Definition download_from_rdatasets (package name : string)
  : M (DataFrame * loc_result) :=
  reg ← read_csv (inl (CStr registry_url));
  datasets ← lift (pkg ← getitem reg "Package";
                   set_index "Item" (loc_mask reg (eq_str pkg package)));
  if negb (bool_decide (CStr name ∈ index datasets))
  then raise (ValueError ("Dataset " +:+ name +:+ " not found."))
  else
    info ← lift (loc_label datasets (CStr name));
    url ← lift (getattr_CSV info);
    df ← read_csv url;
    mret (df, info).

Module _DatasetRdatasetsSurvival.
(** [self.name] and [self.path] are the arguments: the path is set by
    [_DatasetLoader.__init__], outside this module. *)
Definition _download (self_name self_path : string) : M unit :=
  r ← download_from_rdatasets "survival" self_name;
  set_info r.2;;
  to_feather r.1 self_path.
End _DatasetRdatasetsSurvival.

(** ** Frames as objects

    A DataFrame is a mutable object and a variable holds a reference to
    it.  [drop], [loc], [reset_index], [assign] and column selection build
    a new frame; [df[col] = s] changes the frame [df] refers to, for every
    holder of that reference.  The heap lists the frames alive, a
    reference is a position in it. *)

Abbreviation heap := (list DataFrame).
Abbreviation Py := (stateT heap).

#[global] Instance DataFrame_inhabited : Inhabited DataFrame :=
  populate {| index := []; columns := [] |}.

Definition new (df : DataFrame) : Py nat := fun h => (Ok (length h), h ++ [df]).
(** A reference held by the program points into the heap. *)
Definition deref (r : nat) : Py DataFrame := fun h => (Ok (h !!! r), h).
Definition store (r : nat) (df : DataFrame) : Py unit :=
  fun h => (Ok (), <[r := df]> h).

(** A method that returns a new frame computed from the receiver. *)
Definition method (f : DataFrame -> result DataFrame) (r : nat) : Py nat :=
  df ← deref r; df' ← lift (f df); new df'.

Definition getitem_obj (r : nat) (name : string) : Py Series :=
  df ← deref r; lift (getitem df name).

Definition setitem_obj (r : nat) (name : string) (s : Series) : Py unit :=
  df ← deref r; store r (setitem df name s).

Definition columns_obj (r : nat) : Py (list string) :=
  df ← deref r; mret (column_names df).

Definition assign_obj (kwargs : list (string * (nat -> Py Series))) (r : nat)
  : Py nat :=
  df ← deref r;
  data ← new df;
  for_m (fun kv => s ← kv.2 data; setitem_obj data kv.1 s) kwargs;;
  mret data.

Definition cast_column_obj (astype : Series -> result Series)
    (r : nat) (col : string) : Py unit :=
  c ← getitem_obj r col; c' ← lift (astype c); setitem_obj r col c'.

(** ** The loader classes

    [read_df processed df] is the body of the class's [read_df] after its
    first line: [df] is the table [super().read_df()] handed back, that
    is, the raw table read from the cache.  It passes the value of the
    local variable [df] along; [read_df_obj] is the same body on
    references into the heap. *)

(** Modelled from the spec: [_DatasetLoader._label_cols_at_end] is defined
    in [pycox/datasets/_dataset_loader.py], which is not part of the
    sources at hand.  The spec has it "reorder columns to place
    categorical/label columns at the end": the duration and the event
    column move behind the others, which keep their order. *)
Definition _label_cols_at_end (col_duration col_event : string)
    (df : DataFrame) : DataFrame :=
  let col_label := [col_duration; col_event] in
  {| index := index df;
     columns := filter (fun c => c.1 ∉ col_label) (columns df)
                ++ filter (fun c => c.1 = col_duration) (columns df)
                ++ filter (fun c => c.1 = col_event) (columns df) |}.

(** The body of the cast loops, [df[col] = df[col].astype(...)]. *)
Definition cast_column (astype : Series -> result Series)
    (df : DataFrame) (col : string) : result DataFrame :=
  c ← getitem df col; c' ← astype c; Ok (setitem df col c').

Definition cast_category : DataFrame -> string -> result DataFrame :=
  cast_column (fun c => Ok (astype_category c)).

Definition cast_float32 `{PyFloat} : DataFrame -> string -> result DataFrame :=
  cast_column astype_float32.

Module _Flchain.
Definition name : string := "flchain".
Definition col_duration : string := "futime".
Definition col_event : string := "death".
Definition _checksum : string :=
  "ec12748a1aa5790457c09793387337bb03b1dc45a22a2d58a8c2b9ad1f2648dd".
Definition categorical : list string := ["sample.yr"; "flc.grp"].

Definition _download : string -> M unit := _DatasetRdatasetsSurvival._download name.

Definition read_df `{PyFloat} (processed : bool) (df : DataFrame)
  : result DataFrame :=
  if processed then
    df ← drop ["chapter"; "Unnamed: 0"] df;
    mask ← (c ← getitem df "creatinine"; Ok (eq_bool (isna c) false));
    let df := reset_index (loc_mask df mask) in
    df ← assign [("sex", fun x => c ← getitem x "sex"; Ok (eq_str c "M"))] df;
    df ← for_each cast_category categorical df;
    cols ← index_drop categorical (column_names df);
    for_each cast_float32 cols df
  else Ok df.

Definition read_df_obj `{PyFloat} (processed : bool) (df : nat) : Py nat :=
  if processed then
    df ← method (drop ["chapter"; "Unnamed: 0"]) df;
    mask ← (c ← getitem_obj df "creatinine"; mret (eq_bool (isna c) false));
    df ← method (fun x => Ok (loc_mask x mask)) df;
    df ← method (fun x => Ok (reset_index x)) df;
    df ← assign_obj [("sex", fun x => c ← getitem_obj x "sex";
                                      mret (eq_str c "M"))] df;
    for_m (cast_column_obj (fun c => Ok (astype_category c)) df) categorical;;
    names ← columns_obj df;
    cols ← lift (index_drop categorical names);
    for_m (cast_column_obj astype_float32 df) cols;;
    mret df
  else mret df.
End _Flchain.

Module _Nwtco.
Definition name : string := "nwtco".
Definition col_duration : string := "edrel".
Definition col_event : string := "rel".
Definition _checksum : string :=
  "5aa3de698dadb60154dd59196796e382739ff56dc6cbd39cfc2fda50d69d118e".

Definition _download : string -> M unit := _DatasetRdatasetsSurvival._download name.

Definition read_df `{PyFloat} (processed : bool) (df : DataFrame)
  : result DataFrame :=
  if processed then
    instit_2 ← (c ← getitem df "instit"; sub_scalar c 1);
    histol_2 ← (c ← getitem df "histol"; sub_scalar c 1);
    study_4 ← (c ← getitem df "study"; sub_scalar c 3);
    stage ← (c ← getitem df "stage"; Ok (astype_category c));
    df ← assign [("instit_2", fun _ => Ok instit_2);
                 ("histol_2", fun _ => Ok histol_2);
                 ("study_4", fun _ => Ok study_4);
                 ("stage", fun _ => Ok stage)] df;
    df ← drop ["Unnamed: 0"; "seqno"; "instit"; "histol"; "study"] df;
    cols ← index_drop ["stage"] (column_names df);
    df ← for_each cast_float32 cols df;
    Ok (_label_cols_at_end col_duration col_event df)
  else Ok df.

Definition read_df_obj `{PyFloat} (processed : bool) (df : nat) : Py nat :=
  if processed then
    instit_2 ← (c ← getitem_obj df "instit"; lift (sub_scalar c 1));
    histol_2 ← (c ← getitem_obj df "histol"; lift (sub_scalar c 1));
    study_4 ← (c ← getitem_obj df "study"; lift (sub_scalar c 3));
    stage ← (c ← getitem_obj df "stage"; mret (astype_category c));
    df ← assign_obj [("instit_2", fun _ => mret instit_2);
                     ("histol_2", fun _ => mret histol_2);
                     ("study_4", fun _ => mret study_4);
                     ("stage", fun _ => mret stage)] df;
    df ← method (drop ["Unnamed: 0"; "seqno"; "instit"; "histol"; "study"]) df;
    names ← columns_obj df;
    cols ← lift (index_drop ["stage"] names);
    for_m (cast_column_obj astype_float32 df) cols;;
    method (fun x => Ok (_label_cols_at_end col_duration col_event x)) df
  else mret df.
End _Nwtco.

Module _Gbsg.
Definition name : string := "gbsg".
Definition col_duration : string := "rfstime".
Definition col_event : string := "status".
Definition _checksum : string :=
  "df5a80dded44f990c002e00cee6fd96eeaf4c6beb66e08b2f4f5a1710bc37ba4".
Definition dropped : list string := ["Unnamed: 0"; "pid"].

Definition _download (self_path : string) : M unit :=
  df ← read_csv (inl (CStr
    "https://raw.githubusercontent.com/vincentarelbundock/Rdatasets/master/csv/survival/gbsg.csv"));
  to_feather df self_path.

Definition read_df (processed : bool) (df : DataFrame) : result DataFrame :=
  if processed then drop dropped df else Ok df.

Definition read_df_obj (processed : bool) (df : nat) : Py nat :=
  if processed then method (drop dropped) df else mret df.
End _Gbsg.

Module _Rotterdam.
Definition name : string := "rotterdam".
Definition col_duration : string := "rtime".
Definition col_event : string := "recur".
Definition _checksum : string :=
  "7c30775ae615b0e56e6a5060413fa5bccd4716b199ac858fe84d26d7651a52a1".
Definition dropped : list string :=
  ["Unnamed: 0"; "pid"; "year"; "dtime"; "death"; "chemo"].

Definition _download (self_path : string) : M unit :=
  df ← read_csv (inl (CStr
    "https://raw.githubusercontent.com/vincentarelbundock/Rdatasets/master/csv/survival/rotterdam.csv"));
  to_feather df self_path.

Definition read_df (processed : bool) (df : DataFrame) : result DataFrame :=
  if processed then drop dropped df else Ok df.

Definition read_df_obj (processed : bool) (df : nat) : Py nat :=
  if processed then method (drop dropped) df else mret df.
End _Rotterdam.

(** The four datasets of the module and the dispatch on the class. *)
Inductive dataset : Type := Flchain | Nwtco | Gbsg | Rotterdam.

#[global] Instance dataset_eq_dec : EqDecision dataset.
Proof. solve_decision. Defined.

Definition col_duration (d : dataset) : string :=
  match d with
  | Flchain => _Flchain.col_duration
  | Nwtco => _Nwtco.col_duration
  | Gbsg => _Gbsg.col_duration
  | Rotterdam => _Rotterdam.col_duration
  end.

Definition col_event (d : dataset) : string :=
  match d with
  | Flchain => _Flchain.col_event
  | Nwtco => _Nwtco.col_event
  | Gbsg => _Gbsg.col_event
  | Rotterdam => _Rotterdam.col_event
  end.

Definition read_df `{PyFloat} (d : dataset) (processed : bool) (df : DataFrame)
  : result DataFrame :=
  match d with
  | Flchain => _Flchain.read_df processed df
  | Nwtco => _Nwtco.read_df processed df
  | Gbsg => _Gbsg.read_df processed df
  | Rotterdam => _Rotterdam.read_df processed df
  end.

Definition read_df_obj `{PyFloat} (d : dataset) (processed : bool) (df : nat)
  : Py nat :=
  match d with
  | Flchain => _Flchain.read_df_obj processed df
  | Nwtco => _Nwtco.read_df_obj processed df
  | Gbsg => _Gbsg.read_df_obj processed df
  | Rotterdam => _Rotterdam.read_df_obj processed df
  end.

(** ** Vocabulary of the statements *)

(** The rows [_Flchain.read_df] keeps: the mask [creatinine.isna() == False]. *)
Definition notna_mask (creatinine : Series) : list cell :=
  s_values (eq_bool (isna creatinine) false).

(** The float32 image of the comparison [sex == 'M']. *)
Definition sex_code (v : cell) : cell :=
  CFloat (f32_of_Z (Z.b2z (cell_eq_str "M" v))).

(** How a processed flchain column [s'] labelled [name] comes from the raw
    column's values [vs] on the kept rows. *)
Definition flchain_column `{PyFloat} (name : string) (vs : list cell)
    (s' : Series) : Prop :=
  if decide (name = "sex") then s' = mkSeries float32 (sex_code <$> vs)
  else if decide (name ∈ _Flchain.categorical) then s' = mkSeries category vs
  else s_dtype s' = float32 /\ mapM cell_to_float32 vs = Ok (s_values s').

(** Where a processed nwtco column other than 'stage' comes from: one of
    the three shifted Series, or the raw column of that label. *)
Definition nwtco_source (raw : DataFrame) (instit_2 histol_2 study_4 : Series)
    (name : string) : option Series :=
  if decide (name = "study_4") then Some study_4
  else if decide (name = "histol_2") then Some histol_2
  else if decide (name = "instit_2") then Some instit_2
  else lookup_col name (columns raw).

(** One row of a shifted nwtco column: [v'] is the float32 cast of [v - k]. *)
Definition shifted `{PyFloat} (dt : dtype) (k : Z) (v v' : cell) : Prop :=
  exists u, cell_sub dt k v = Ok u /\ cell_to_float32 u = Ok v'.

(** A run on references [p] (what it returned and the heap it left)
    computes the result on values [r] from the heap [h]: it returns a
    reference to the table of [r], or raises the exception of [r], and the
    frames of [h] are still there, as they were. *)
Definition computes (h : heap) (r : result DataFrame) (p : result nat * heap)
  : Prop :=
  h `prefix_of` p.2 /\
  match r, p.1 with
  | Ok out, Ok l' => p.2 !! l' = Some out
  | Raise e, Raise e' => e = e'
  | _, _ => False
  end.

(** A cell that holds a number, as the cells of an int64, float64 or bool
    column do. *)
Definition numeric (c : cell) : Prop :=
  match c with
  | CInt _ | CFloat _ | CBool _ => True
  | CStr _ | CNone => False
  end.

(** The integer a float stands for, when it stands for one. *)
Definition float_to_Z (f : spec_float) : option Z :=
  match f with
  | S754_zero _ => Some 0
  | S754_finite s m e =>
      if 0 <=? e then Some (cond_Zopp s (Z.pos m * 2 ^ e))
      else if Z.pos m mod 2 ^ (- e) =? 0
           then Some (cond_Zopp s (Z.pos m / 2 ^ (- e)))
           else None
  | S754_infinity _ | S754_nan => None
  end.

(** The binary32 numbers 1.0 and 0.0. *)
Definition f32_one : spec_float := S754_finite false 8388608 (-23).
Definition f32_zero : spec_float := S754_zero false.

(** A frame is rectangular when each column has one value per index entry. *)
Definition rectangular (df : DataFrame) : Prop :=
  Forall (fun c => length (s_values c.2) = length (index df)) (columns df).

(** The columns a processed [read_df] reads or drops by label. *)
Definition required (d : dataset) : list string :=
  match d with
  | Flchain => ["chapter"; "Unnamed: 0"; "creatinine"; "sex"; "sample.yr"; "flc.grp"]
  | Nwtco => ["instit"; "histol"; "study"; "stage"; "Unnamed: 0"; "seqno"]
  | Gbsg => _Gbsg.dropped
  | Rotterdam => _Rotterdam.dropped
  end.

(** A cell that [astype('float32')] accepts. *)
Definition castable `{PyFloat} (v : cell) : Prop :=
  exists v', cell_to_float32 v = Ok v'.

(** A computation that leaves the state as it found it, however it ends. *)
Definition reads_only {S A : Type} (m : stateT S A) : Prop :=
  forall s, (m s).2 = s.

(** ** Sample tables *)

(** The sample tables hold no string that is cast to a number, so the
    parser of the samples knows no literal. *)
Definition no_literal : PyFloat := fun _ => None.

(** The dyadic number [m * 2^e] as a binary64 float. *)
Definition f64 (m e : Z) : cell := CFloat (binary_normalize 53 1024 m e false).

(** Three rows with the columns of [survival/flchain.csv]; the second has
    no creatinine. *)
Definition flchain_sample : DataFrame :=
  {| index := range_index 3;
     columns :=
       [("Unnamed: 0", mkSeries int64 [CInt 1; CInt 2; CInt 3]);
        ("age", mkSeries int64 [CInt 97; CInt 92; CInt 94]);
        ("sex", mkSeries object_ [CStr "F"; CStr "M"; CStr "M"]);
        ("sample.yr", mkSeries int64 [CInt 1997; CInt 2000; CInt 1997]);
        ("kappa", mkSeries float64 [f64 11 (-1); f64 3 (-2); f64 9 (-1)]);
        ("lambda", mkSeries float64 [f64 19 (-2); f64 7 (-3); f64 5 (-1)]);
        ("flc.grp", mkSeries int64 [CInt 10; CInt 1; CInt 10]);
        ("creatinine", mkSeries float64 [f64 3 (-1); CFloat S754_nan; f64 5 (-2)]);
        ("mgus", mkSeries int64 [CInt 0; CInt 0; CInt 1]);
        ("futime", mkSeries int64 [CInt 85; CInt 1281; CInt 69]);
        ("death", mkSeries int64 [CInt 1; CInt 1; CInt 0]);
        ("chapter", mkSeries object_ [CStr "Circulatory"; CNone; CNone])] |}.

(** The flchain columns and no row. *)
Definition flchain_empty : DataFrame :=
  {| index := [];
     columns := (fun c : string * Series => (c.1, mkSeries (s_dtype c.2) []))
                <$> columns flchain_sample |}.

(** Rows with the columns of [survival/nwtco.csv]. *)
Definition nwtco_table (instit : list cell) : DataFrame :=
  {| index := range_index 2;
     columns :=
       [("Unnamed: 0", mkSeries int64 [CInt 1; CInt 2]);
        ("seqno", mkSeries int64 [CInt 1; CInt 2]);
        ("instit", mkSeries int64 instit);
        ("histol", mkSeries int64 [CInt 2; CInt 1]);
        ("stage", mkSeries int64 [CInt 1; CInt 4]);
        ("study", mkSeries int64 [CInt 3; CInt 4]);
        ("rel", mkSeries int64 [CInt 0; CInt 1]);
        ("edrel", mkSeries int64 [CInt 6075; CInt 4121]);
        ("age", mkSeries int64 [CInt 25; CInt 50]);
        ("in.subcohort", mkSeries bool_ [CBool false; CBool true])] |}.

Definition nwtco_sample : DataFrame := nwtco_table [CInt 2; CInt 1].

(** The same table with an institution code beyond 2^24. *)
Definition nwtco_large : DataFrame := nwtco_table [CInt 16777218; CInt 1].

(** Two rows with the columns of [survival/gbsg.csv]. *)
Definition gbsg_sample : DataFrame :=
  {| index := range_index 2;
     columns :=
       [("Unnamed: 0", mkSeries int64 [CInt 1; CInt 2]);
        ("pid", mkSeries int64 [CInt 132; CInt 1575]);
        ("age", mkSeries int64 [CInt 49; CInt 55]);
        ("meno", mkSeries int64 [CInt 0; CInt 1]);
        ("size", mkSeries int64 [CInt 18; CInt 20]);
        ("grade", mkSeries int64 [CInt 2; CInt 3]);
        ("nodes", mkSeries int64 [CInt 2; CInt 16]);
        ("pgr", mkSeries int64 [CInt 0; CInt 0]);
        ("er", mkSeries int64 [CInt 0; CInt 0]);
        ("hormon", mkSeries int64 [CInt 0; CInt 0]);
        ("rfstime", mkSeries int64 [CInt 1838; CInt 403]);
        ("status", mkSeries int64 [CInt 0; CInt 1])] |}.

(** Two rows with the columns of [survival/rotterdam.csv]. *)
Definition rotterdam_sample : DataFrame :=
  {| index := range_index 2;
     columns :=
       [("Unnamed: 0", mkSeries int64 [CInt 1; CInt 2]);
        ("pid", mkSeries int64 [CInt 1; CInt 2]);
        ("year", mkSeries int64 [CInt 1992; CInt 1984]);
        ("age", mkSeries int64 [CInt 74; CInt 79]);
        ("meno", mkSeries int64 [CInt 1; CInt 1]);
        ("size", mkSeries object_ [CStr "<=20"; CStr "20-50"]);
        ("grade", mkSeries int64 [CInt 3; CInt 3]);
        ("nodes", mkSeries int64 [CInt 0; CInt 0]);
        ("pgr", mkSeries int64 [CInt 35; CInt 36]);
        ("er", mkSeries int64 [CInt 291; CInt 611]);
        ("hormon", mkSeries int64 [CInt 0; CInt 0]);
        ("chemo", mkSeries int64 [CInt 0; CInt 0]);
        ("rtime", mkSeries int64 [CInt 1799; CInt 2828]);
        ("recur", mkSeries int64 [CInt 0; CInt 0]);
        ("dtime", mkSeries int64 [CInt 1799; CInt 2828]);
        ("death", mkSeries int64 [CInt 0; CInt 0])] |}.

(** A registry of three datasets, 'acme' being listed under package
    'boot' only, and a world that serves it and has an empty cache. *)
Definition registry_sample : DataFrame :=
  {| index := range_index 3;
     columns :=
       [("Package", mkSeries object_ [CStr "survival"; CStr "boot"; CStr "survival"]);
        ("Item", mkSeries object_ [CStr "flchain"; CStr "acme"; CStr "nwtco"]);
        ("Title", mkSeries object_ [CStr "Assay of serum free light chain";
                                    CStr "Monthly Excess Returns";
                                    CStr "Data from the National Wilm's Tumor Study"]);
        ("CSV", mkSeries object_ [CStr "https://example.org/csv/survival/flchain.csv";
                                  CStr "https://example.org/csv/boot/acme.csv";
                                  CStr "https://example.org/csv/survival/nwtco.csv"])] |}.

Definition world_sample : world :=
  {| web := {[ registry_url := registry_sample ]};
     files := ∅;
     self_info := None |}.

(** A registry that lists flchain twice under 'survival', and a world that
    serves it. *)
Definition registry_twice : DataFrame :=
  {| index := range_index 2;
     columns :=
       [("Package", mkSeries object_ [CStr "survival"; CStr "survival"]);
        ("Item", mkSeries object_ [CStr "flchain"; CStr "flchain"]);
        ("CSV", mkSeries object_ [CStr "https://example.org/csv/survival/flchain.csv";
                                  CStr "https://example.org/csv/survival/flchain2.csv"])] |}.

Definition world_twice : world :=
  {| web := {[ registry_url := registry_twice ]};
     files := ∅;
     self_info := None |}.

(** A world whose web serves the registry and the flchain table. *)
Definition world_serving : world :=
  {| web := {[ registry_url := registry_sample;
               "https://example.org/csv/survival/flchain.csv" := flchain_sample ]};
     files := ∅;
     self_info := None |}.

(** What a call returned, or the empty frame when it raised. *)
Definition returned (r : result DataFrame) : DataFrame :=
  match r with
  | Ok df => df
  | Raise _ => {| index := []; columns := [] |}
  end.

Definition flchain_sample_processed : DataFrame :=
  Eval vm_compute in returned (@_Flchain.read_df no_literal true flchain_sample).

Definition nwtco_sample_processed : DataFrame :=
  Eval vm_compute in returned (@_Nwtco.read_df no_literal true nwtco_sample).

Definition rotterdam_sample_processed : DataFrame :=
  Eval vm_compute in returned (@read_df no_literal Rotterdam true rotterdam_sample).

Definition nwtco_large_processed : DataFrame :=
  Eval vm_compute in returned (@_Nwtco.read_df no_literal true nwtco_large).

(** * Properties *)

(** ** The error monad *)

Lemma bind_Ok {A B : Type} (m : result A) (f : A -> result B) (b : B) :
  m ≫= f = Ok b -> exists a, m = Ok a /\ f a = Ok b.
Proof. destruct m as [a|e]; simpl; [eauto | discriminate]. Qed.

(** A closed decidable proposition, by evaluation. *)
Ltac by_decide := apply (bool_decide_unpack _); by vm_compute.

Tactic Notation "inv_bind" ident(H) "as" ident(a) ident(Ha) :=
  apply bind_Ok in H; destruct H as (a & Ha & H).

Lemma mapM_Ok {A B : Type} (f : A -> result B) (l : list A) (k : list B) :
  mapM f l = Ok k <-> Forall2 (fun x y => f x = Ok y) l k.
Proof.
  revert k. induction l as [|x l IH]; intros k; simpl.
  - split.
    + intros [= <-]. constructor.
    + intros Hk. inversion Hk. reflexivity.
  - split.
    + intros H. inv_bind H as y Hy. inv_bind H as k' Hk'. injection H as <-.
      constructor; [assumption | by apply IH].
    + intros Hk. inversion Hk as [|? y ? k' Hy Hk']; subst.
      rewrite Hy. simpl. apply IH in Hk'. rewrite Hk'. reflexivity.
Qed.

(** ** Columns by label *)

Lemma lookup_col_None name cols :
  lookup_col name cols = None <-> name ∉ cols.*1.
Proof.
  induction cols as [|[n s] cols IH]; simpl.
  - split; [intros _; apply not_elem_of_nil | done].
  - destruct (decide (n = name)) as [->|Hne].
    + split; [done | intros []; left].
    + rewrite IH, not_elem_of_cons.
      split; [intros H; split; [congruence | exact H] | intros [_ H]; exact H].
Qed.

Lemma lookup_col_is_Some name cols :
  is_Some (lookup_col name cols) <-> name ∈ cols.*1.
Proof.
  rewrite <- not_eq_None_Some, lookup_col_None.
  destruct (decide (name ∈ cols.*1)); naive_solver.
Qed.

Lemma lookup_col_elem_of name s cols :
  lookup_col name cols = Some s -> (name, s) ∈ cols.
Proof.
  induction cols as [|[n s'] cols IH]; simpl; [done|].
  destruct (decide (n = name)) as [->|Hne].
  - intros [= ->]. left.
  - intros H. right. auto.
Qed.

Lemma lookup_col_NoDup name s cols :
  NoDup cols.*1 -> (name, s) ∈ cols -> lookup_col name cols = Some s.
Proof.
  induction cols as [|[n s'] cols IH]; simpl; intros Hnd Hin.
  - by apply elem_of_nil in Hin.
  - apply NoDup_cons in Hnd as [Hn Hnd].
    apply elem_of_cons in Hin as [[= -> ->]|Hin].
    + by rewrite decide_True.
    + destruct (decide (n = name)) as [->|Hne]; [|auto].
      exfalso. apply Hn. change name with (name, s).1. by apply list_elem_of_fmap_2.
Qed.

Lemma lookup_col_filter (labels : list string) name cols :
  lookup_col name (filter (fun c => c.1 ∉ labels) cols)
  = if decide (name ∈ labels) then None else lookup_col name cols.
Proof.
  induction cols as [|[n s] cols IH]; simpl.
  - by destruct (decide (name ∈ labels)).
  - rewrite filter_cons. simpl. destruct (decide (n ∉ labels)) as [Hn|Hn]; simpl.
    + destruct (decide (n = name)) as [->|Hne]; [by rewrite decide_False | done].
    + rewrite IH. destruct (decide (name ∈ labels)) as [Hp|Hp]; [done|].
      rewrite decide_False; [done | intros ->; by apply Hn].
Qed.

Lemma lookup_col_fmap (h : Series -> Series) name cols :
  lookup_col name ((fun c => (c.1, h c.2)) <$> cols) = h <$> lookup_col name cols.
Proof.
  induction cols as [|[n s] cols IH]; simpl; [done|].
  destruct (decide (n = name)); [done | apply IH].
Qed.

Lemma names_fmap (h : Series -> Series) (cols : list (string * Series)) :
  ((fun c => (c.1, h c.2)) <$> cols).*1 = cols.*1.
Proof. rewrite <- list_fmap_compose. by apply list_fmap_ext. Qed.

Lemma names_filter (labels : list string) (cols : list (string * Series)) :
  (filter (fun c => c.1 ∉ labels) cols).*1 = filter (fun n => n ∉ labels) cols.*1.
Proof.
  induction cols as [|[n s] cols IH]; [done|].
  rewrite fmap_cons, !filter_cons. cbn [fst].
  destruct (decide (n ∉ labels)); [rewrite fmap_cons|]; by rewrite IH.
Qed.

(** ** Frame operations *)

Lemma getitem_Ok df name s :
  getitem df name = Ok s <-> lookup_col name (columns df) = Some s.
Proof.
  unfold getitem. destruct (lookup_col name (columns df)); split; congruence.
Qed.

Lemma index_setitem df k s : index (setitem df k s) = index df.
Proof. reflexivity. Qed.

Lemma names_setitem df k s :
  column_names (setitem df k s)
  = if decide (k ∈ column_names df) then column_names df else column_names df ++ [k].
Proof.
  unfold setitem, column_names. simpl.
  destruct (decide (k ∈ (columns df).*1)) as [Hin|Hin].
  - rewrite <- list_fmap_compose. apply list_fmap_ext. intros _ [n c] _. simpl.
    by destruct (decide (n = k)) as [->|].
  - by rewrite fmap_app.
Qed.

Lemma lookup_col_replace k s name cols :
  lookup_col name ((fun c => if decide (c.1 = k) then (k, s) else c) <$> cols)
  = (fun c => if decide (name = k) then s else c) <$> lookup_col name cols.
Proof.
  induction cols as [|[n c] cols IH]; simpl; [done|].
  destruct (decide (n = k)) as [->|Hnk]; simpl.
  - destruct (decide (k = name)) as [<-|Hkn]; simpl.
    + by rewrite decide_True.
    + apply IH.
  - destruct (decide (n = name)) as [->|Hnn]; simpl.
    + by rewrite decide_False.
    + apply IH.
Qed.

Lemma lookup_col_app name cols1 cols2 :
  lookup_col name (cols1 ++ cols2)
  = match lookup_col name cols1 with
    | Some c => Some c
    | None => lookup_col name cols2
    end.
Proof.
  induction cols1 as [|[n c] cols1 IH]; simpl; [done|].
  destruct (decide (n = name)); [done | apply IH].
Qed.

Lemma lookup_setitem df k s name :
  lookup_col name (columns (setitem df k s))
  = if decide (name = k) then Some s else lookup_col name (columns df).
Proof.
  unfold setitem, column_names. simpl.
  destruct (decide (k ∈ (columns df).*1)) as [Hin|Hin].
  - rewrite lookup_col_replace.
    destruct (decide (name = k)) as [->|Hne].
    + apply lookup_col_is_Some in Hin as [c ->]. done.
    + by destruct (lookup_col name (columns df)).
  - rewrite lookup_col_app. simpl. apply lookup_col_None in Hin.
    destruct (decide (name = k)) as [->|Hne].
    + rewrite Hin. by rewrite decide_True.
    + destruct (lookup_col name (columns df)); [done|].
      rewrite decide_False; [done | congruence].
Qed.

Lemma NoDup_setitem df k s :
  NoDup (column_names df) -> NoDup (column_names (setitem df k s)).
Proof.
  intros Hnd. rewrite names_setitem.
  destruct (decide (k ∈ column_names df)) as [|Hin]; [done|].
  apply NoDup_app. split; [done|]. split; [|apply NoDup_singleton].
  intros x Hx ->%list_elem_of_singleton. done.
Qed.

Lemma drop_Ok labels df out :
  drop labels df = Ok out ->
  out = {| index := index df;
           columns := filter (fun c => c.1 ∉ labels) (columns df) |}
  /\ labels ⊆ column_names df.
Proof.
  unfold drop. intros H.
  destruct (filter _ labels) as [|m ms] eqn:Hmiss; [|discriminate].
  injection H as <-. split; [done|].
  intros l Hl. destruct (decide (l ∈ column_names df)) as [|Hn]; [done|].
  exfalso. eapply filter_nil_not_elem_of; [apply Hmiss | apply Hn | apply Hl].
Qed.

Lemma drop_present labels df :
  labels ⊆ column_names df ->
  drop labels df = Ok {| index := index df;
                         columns := filter (fun c => c.1 ∉ labels) (columns df) |}.
Proof.
  intros Hsub. unfold drop.
  destruct (filter _ labels) as [|m ms] eqn:Hmiss; [done|].
  assert (Hm : m ∈ filter (fun l => l ∉ column_names df) labels)
    by (rewrite Hmiss; left).
  apply list_elem_of_filter in Hm as [Hm1 Hm2]. by apply Hsub in Hm2.
Qed.

Lemma index_drop_Ok labels names cols :
  index_drop labels names = Ok cols ->
  cols = filter (fun n => n ∉ labels) names /\ labels ⊆ names.
Proof.
  unfold index_drop. intros H.
  destruct (filter _ labels) as [|m ms] eqn:Hmiss; [|discriminate].
  injection H as <-. split; [done|].
  intros l Hl. destruct (decide (l ∈ names)) as [|Hn]; [done|].
  exfalso. eapply filter_nil_not_elem_of; [apply Hmiss | apply Hn | apply Hl].
Qed.

(** The cast loop, column by column: a label of the loop has its column
    cast once, the other columns stay as they are. *)
Lemma for_each_cast_column (f : Series -> result Series) cols df out :
  NoDup cols ->
  for_each (cast_column f) cols df = Ok out ->
  index out = index df /\ column_names out = column_names df /\
  forall name,
    if decide (name ∈ cols)
    then exists s s', lookup_col name (columns df) = Some s /\ f s = Ok s'
                      /\ lookup_col name (columns out) = Some s'
    else lookup_col name (columns out) = lookup_col name (columns df).
Proof.
  intros Hnd. revert df. induction Hnd as [|col cols Hcol Hnd IH]; intros df H.
  - simpl in H. injection H as <-. repeat split.
  - simpl in H. inv_bind H as df1 Hdf1. unfold cast_column in Hdf1.
    inv_bind Hdf1 as c Hc. inv_bind Hdf1 as c' Hc'. injection Hdf1 as <-.
    apply getitem_Ok in Hc.
    apply IH in H as (Hidx & Hnames & Hcols). split; [done|]. split.
    { rewrite Hnames, names_setitem, decide_True; [done|].
      apply lookup_col_is_Some. by eexists. }
    intros name. specialize (Hcols name). rewrite lookup_setitem in Hcols.
    destruct (decide (name = col)) as [->|Hne].
    + rewrite decide_False in Hcols by done. rewrite decide_True by left. eauto.
    + destruct (decide (name ∈ cols)) as [Hin|Hin].
      * rewrite decide_True by (by right). done.
      * rewrite decide_False; [done|]. rewrite not_elem_of_cons. done.
Qed.

(** ** flchain *)

Lemma astype_float32_Ok `{PyFloat} s s' :
  astype_float32 s = Ok s' <->
  s_dtype s' = float32 /\ mapM cell_to_float32 (s_values s) = Ok (s_values s').
Proof.
  unfold astype_float32. split.
  - intros H0. inv_bind H0 as vs Hvs. injection H0 as <-. done.
  - intros [Hdt Hvs]. rewrite Hvs. simpl. destruct s'; simpl in *. by subst.
Qed.

Lemma mapM_float32_bool `{PyFloat} (g : cell -> bool) vs :
  mapM cell_to_float32 ((fun v => CBool (g v)) <$> vs)
  = Ok ((fun v => CFloat (f32_of_Z (Z.b2z (g v)))) <$> vs).
Proof. apply mapM_Ok. apply Forall2_fmap, Forall_Forall2_diag, Forall_true. done. Qed.

Lemma lookup_loc_mask df mask name :
  lookup_col name (columns (loc_mask df mask))
  = (fun s => mkSeries (s_dtype s) (select (s_values mask) (s_values s)))
    <$> lookup_col name (columns df).
Proof.
  apply (lookup_col_fmap
           (fun s => mkSeries (s_dtype s) (select (s_values mask) (s_values s)))).
Qed.

Lemma names_loc_mask df mask : column_names (loc_mask df mask) = column_names df.
Proof.
  apply (names_fmap
           (fun s => mkSeries (s_dtype s) (select (s_values mask) (s_values s)))).
Qed.

Lemma flchain_read_df_spec `{PyFloat} raw out :
  NoDup (column_names raw) ->
  _Flchain.read_df true raw = Ok out ->
  exists creatinine,
    lookup_col "creatinine" (columns raw) = Some creatinine /\
    index out = range_index (length (select (notna_mask creatinine) (index raw))) /\
    column_names out
    = filter (fun n => n ∉ ["chapter"; "Unnamed: 0"]) (column_names raw) /\
    "sex" :: "creatinine" :: _Flchain.categorical ⊆ column_names out /\
    forall name s',
      lookup_col name (columns out) = Some s' ->
      exists s, lookup_col name (columns raw) = Some s /\
                flchain_column name (select (notna_mask creatinine) (s_values s)) s'.
Proof.
  intros Hnd H0. unfold _Flchain.read_df in H0.
  inv_bind H0 as df1 Hdf1. apply drop_Ok in Hdf1 as [-> Hsub].
  inv_bind H0 as mask Hmask. inv_bind Hmask as creatinine Hcr. injection Hmask as <-.
  apply getitem_Ok in Hcr. simpl in Hcr.
  rewrite lookup_col_filter in Hcr.
  destruct (decide ("creatinine" ∈ ["chapter"; "Unnamed: 0"])); [done|].
  exists creatinine. split; [done|].
  set (dropped := ["chapter"; "Unnamed: 0"]) in *.
  set (keep := notna_mask creatinine).
  set (df2 := reset_index _) in H0.
  assert (Hidx2 : index df2 = range_index (length (select keep (index raw))))
    by reflexivity.
  assert (Hnames2 : column_names df2
                    = filter (fun n => n ∉ dropped) (column_names raw)).
  { unfold df2, reset_index, column_names. cbn [columns].
    rewrite <- names_filter. apply names_loc_mask. }
  assert (Hcols2 : forall name,
    lookup_col name (columns df2)
    = if decide (name ∈ dropped) then None
      else (fun s => mkSeries (s_dtype s) (select keep (s_values s)))
           <$> lookup_col name (columns raw)).
  { intros name. unfold df2, reset_index. cbn [columns].
    rewrite lookup_loc_mask. cbn [columns]. rewrite lookup_col_filter.
    by destruct (decide (name ∈ dropped)). }
  clearbody df2.
  inv_bind H0 as df3 Hdf3. unfold assign in Hdf3. simpl in Hdf3.
  inv_bind Hdf3 as df3' Hdf3'. injection Hdf3 as ->.
  inv_bind Hdf3' as sex Hsex. inv_bind Hsex as sx Hsx.
  injection Hsex as <-. injection Hdf3' as <-. apply getitem_Ok in Hsx.
  inv_bind H0 as df4 Hdf4.
  apply for_each_cast_column in Hdf4 as (Hidx4 & Hnames4 & Hcols4);
    [|by_decide].
  inv_bind H0 as cols Hcols. apply index_drop_Ok in Hcols as [-> _].
  assert (Hnames3 : column_names (setitem df2 "sex" (eq_str sx "M"))
                    = column_names df2).
  { rewrite names_setitem, decide_True; [done|].
    apply lookup_col_is_Some. by eexists. }
  rewrite Hnames3 in Hnames4.
  apply for_each_cast_column in H0 as (Hidx & Hnames & Hcols).
  2:{ apply NoDup_filter. rewrite Hnames4, Hnames2. by apply NoDup_filter. }
  split; [by rewrite Hidx, Hidx4|]. split; [by rewrite Hnames, Hnames4|].
  split.
  { intros name Hname. rewrite Hnames, Hnames4. apply lookup_col_is_Some.
    apply elem_of_cons in Hname as [->|Hname]; [by eexists|].
    apply elem_of_cons in Hname as [->|Hname].
    { rewrite Hcols2, Hcr. by destruct (decide (_ ∈ dropped)). }
    specialize (Hcols4 name). rewrite decide_True in Hcols4 by done.
    destruct Hcols4 as (s3 & _ & Hs3 & _).
    apply lookup_col_is_Some. fold (column_names df2). rewrite <- Hnames3.
    apply lookup_col_is_Some. by eexists. }
  intros name s' Hs'. specialize (Hcols name). specialize (Hcols4 name).
  rewrite lookup_setitem, Hcols2 in Hcols4. unfold flchain_column.
  destruct (decide (name ∈ filter (fun n => n ∉ _Flchain.categorical)
                                  (column_names df4))) as [Hin|Hin].
  - destruct Hcols as (s4 & s'' & Hs4 & Hcast & Hout).
    rewrite Hs' in Hout. injection Hout as <-.
    apply list_elem_of_filter in Hin as [Hncat Hin].
    rewrite decide_False in Hcols4 by done. rewrite Hs4 in Hcols4.
    destruct (decide (name = "sex")) as [->|Hnsex].
    + injection Hcols4 as ->. rewrite Hcols2 in Hsx. simpl in Hsx.
      destruct (lookup_col "sex" (columns raw)) as [s|]; [|done].
      injection Hsx as <-. exists s. split; [done|].
      apply astype_float32_Ok in Hcast as [Hdt Hvs]. simpl in Hvs.
      rewrite mapM_float32_bool in Hvs. injection Hvs as Hvs.
      destruct s'. simpl in *. by subst.
    + destruct (decide (name ∈ dropped)); [done|].
      destruct (lookup_col name (columns raw)) as [s|]; [|done].
      injection Hcols4 as ->. exists s. split; [done|].
      rewrite decide_False by done. by apply astype_float32_Ok in Hcast.
  - rewrite Hs' in Hcols.
    assert (Hcat : name ∈ _Flchain.categorical).
    { destruct (decide (name ∈ _Flchain.categorical)) as [|Hncat]; [done|].
      exfalso. apply Hin. apply list_elem_of_filter. split; [done|].
      apply lookup_col_is_Some. by eexists. }
    assert (Hnsex : name ≠ "sex").
    { intros ->. revert Hcat. by_decide. }
    rewrite decide_True in Hcols4 by done.
    destruct Hcols4 as (s3 & s4 & Hs3 & Hcast & Hs4).
    rewrite <- Hcols in Hs4. injection Hs4 as <-. injection Hcast as <-.
    rewrite decide_False in Hs3 by done.
    destruct (decide (name ∈ dropped)); [done|].
    destruct (lookup_col name (columns raw)) as [s|]; [|done].
    injection Hs3 as <-. exists s. split; [done|].
    rewrite decide_False by done. by rewrite decide_True.
Qed.

(** ** Rounding never invents a NaN *)

Lemma shr_1_nonneg mrs : 0 <= shr_m mrs -> 0 <= shr_m (shr_1 mrs).
Proof.
  destruct mrs as [m r s]. simpl. intros Hm.
  destruct m as [|[p|p|]|p]; simpl; lia.
Qed.

Lemma iter_pos_shr_1_nonneg p mrs :
  0 <= shr_m mrs -> 0 <= shr_m (SpecFloat.iter_pos shr_1 p mrs).
Proof.
  revert mrs. induction p as [p IH|p IH|]; intros mrs Hm; simpl.
  - apply IH, IH. by apply shr_1_nonneg.
  - by apply IH, IH.
  - by apply shr_1_nonneg.
Qed.

Lemma shr_fexp_nonneg prec emax m e l :
  0 <= m -> 0 <= shr_m (shr_fexp prec emax m e l).1.
Proof.
  intros Hm. unfold shr_fexp, shr.
  assert (H0 : 0 <= shr_m (shr_record_of_loc m l)) by (by destruct l as [|[]]).
  destruct (_ - e)%Z; simpl; [done | | done].
  by apply iter_pos_shr_1_nonneg.
Qed.

Lemma round_nearest_even_nonneg m l : 0 <= m -> 0 <= round_nearest_even m l.
Proof.
  intros Hm. unfold round_nearest_even.
  destruct l as [|[]]; [done | | done | lia]. destruct (Z.even m); lia.
Qed.

Lemma binary_round_aux_not_nan prec emax s m e l :
  0 <= m -> is_nan (binary_round_aux prec emax s m e l) = false.
Proof.
  intros Hm. unfold binary_round_aux.
  pose proof (shr_fexp_nonneg prec emax m e l Hm) as H1.
  destruct (shr_fexp prec emax m e l) as [mrs' e']. simpl in H1.
  pose proof (shr_fexp_nonneg prec emax _ e' loc_Exact
                (round_nearest_even_nonneg _ (loc_of_shr_record mrs') H1)) as H2.
  destruct (shr_fexp prec emax _ e' loc_Exact) as [mrs'' e'']. simpl in H2.
  destruct (shr_m mrs''); [done | | lia].
  by destruct (_ <=? _).
Qed.

Lemma binary_round_not_nan prec emax s m e :
  is_nan (binary_round prec emax s m e) = false.
Proof.
  unfold binary_round. destruct (shl_align _ _ _) as [mz ez].
  by apply binary_round_aux_not_nan.
Qed.

Lemma f32_of_Z_not_nan z : is_nan (f32_of_Z z) = false.
Proof.
  unfold f32_of_Z, binary_normalize.
  destruct z; [done | apply binary_round_not_nan..].
Qed.

Lemma f32_round_is_nan f : is_nan (f32_round f) = is_nan f.
Proof. destruct f; simpl; [done..|]. apply binary_round_not_nan. Qed.

(** ** flchain: the claims *)

Lemma select_notna (creatinine : Series) :
  select (notna_mask creatinine) (s_values creatinine)
  = filter (fun v => cell_isna v = false) (s_values creatinine).
Proof.
  unfold notna_mask, eq_bool, isna. cbn [s_values].
  induction (s_values creatinine) as [|v vs IH]; [done|].
  rewrite filter_cons, !fmap_cons. cbn [select cell_eq_bool]. rewrite IH.
  destruct (cell_isna v); simpl; repeat case_decide; done.
Qed.

Lemma cell_to_float32_notna `{PyFloat} v v' :
  numeric v -> cell_isna v = false -> cell_to_float32 v = Ok v' ->
  cell_isna v' = false.
Proof.
  destruct v as [z|f|b|s|]; simpl; try done; intros _ Hna [= <-]; simpl.
  - apply f32_of_Z_not_nan.
  - by rewrite f32_round_is_nan.
  - apply f32_of_Z_not_nan.
Qed.

Lemma mapM_float32_notna `{PyFloat} vs vs' :
  mapM cell_to_float32 vs = Ok vs' ->
  Forall (fun v => numeric v /\ cell_isna v = false) vs ->
  Forall (fun v => cell_isna v = false) vs'.
Proof.
  rewrite mapM_Ok. induction 1 as [|v v' vs vs' Hv _ IH]; intros Hk; [constructor|].
  apply Forall_cons in Hk as [[Hn Hna] Hk].
  constructor; [by eapply cell_to_float32_notna | by apply IH].
Qed.

Lemma sex_code_M v :
  sex_code v = CFloat (if decide (v = CStr "M") then f32_one else f32_zero).
Proof.
  unfold sex_code, cell_eq_str. destruct v as [z|f|b|s|]; try done.
  destruct (decide (s = "M")) as [->|Hne].
  - by rewrite decide_True.
  - rewrite bool_decide_eq_false_2 by done. rewrite decide_False; [done | congruence].
Qed.

Lemma flchain_NoDup_out `{PyFloat} raw out :
  NoDup (column_names raw) -> _Flchain.read_df true raw = Ok out ->
  NoDup (column_names out).
Proof.
  intros Hnd Hrun.
  destruct (flchain_read_df_spec raw out Hnd Hrun) as (c & _ & _ & -> & _).
  by apply NoDup_filter.
Qed.

(** C1, as the code has it.  The processed flchain table keeps the rows
    whose raw creatinine is not missing, in order, cast to float32; when
    the raw creatinine cells are numbers, none of the processed ones is
    missing.  The sex column is float32-typed: the boolean result of the
    comparison with 'M' is cast with the other non-categorical columns. *)
Theorem flchain_creatinine_notna_sex_float32 `{PyFloat} raw out :
  NoDup (column_names raw) ->
  _Flchain.read_df true raw = Ok out ->
  exists creatinine creatinine' sex',
    lookup_col "creatinine" (columns raw) = Some creatinine /\
    lookup_col "creatinine" (columns out) = Some creatinine' /\
    mapM cell_to_float32 (filter (fun v => cell_isna v = false) (s_values creatinine))
    = Ok (s_values creatinine') /\
    (Forall numeric (s_values creatinine) ->
     Forall (fun v => cell_isna v = false) (s_values creatinine')) /\
    lookup_col "sex" (columns out) = Some sex' /\
    s_dtype sex' = float32.
Proof.
  intros Hnd Hrun.
  destruct (flchain_read_df_spec raw out Hnd Hrun)
    as (creatinine & Hcr & _ & _ & Hpresent & Hcols).
  assert (Hc : is_Some (lookup_col "creatinine" (columns out))).
  { apply lookup_col_is_Some, Hpresent. by_decide. }
  assert (Hs : is_Some (lookup_col "sex" (columns out))).
  { apply lookup_col_is_Some, Hpresent. by_decide. }
  destruct Hc as [creatinine' Hc], Hs as [sex' Hs].
  exists creatinine, creatinine', sex'. split; [done|]. split; [done|].
  destruct (Hcols _ _ Hc) as (s & Hs0 & Hcol). rewrite Hcr in Hs0.
  injection Hs0 as <-. unfold flchain_column in Hcol.
  rewrite decide_False in Hcol by done.
  rewrite decide_False in Hcol by by_decide.
  destruct Hcol as [_ Hvals]. rewrite select_notna in Hvals.
  split; [done|]. split.
  - intros Hnum. eapply mapM_float32_notna; [apply Hvals|].
    apply Forall_forall. intros v [Hv Hin]%list_elem_of_filter. split; [|done].
    by eapply Forall_forall in Hnum.
  - split; [done|]. destruct (Hcols _ _ Hs) as (s & _ & Hcol).
    unfold flchain_column in Hcol. rewrite decide_True in Hcol by done.
    by rewrite Hcol.
Qed.

Lemma flchain_creatinine_notna_sex_float32_witness :
  exists creatinine' sex',
    lookup_col "creatinine" (columns flchain_sample_processed) = Some creatinine' /\
    Forall (fun v => cell_isna v = false) (s_values creatinine') /\
    lookup_col "sex" (columns flchain_sample_processed) = Some sex' /\
    s_dtype sex' = float32.
Proof.
  destruct (flchain_creatinine_notna_sex_float32 (H := no_literal)
              flchain_sample flchain_sample_processed)
    as (c & c' & s' & Hc & Hc' & _ & Hna & Hs' & Hdt).
  - by_decide.
  - vm_compute. reflexivity.
  - exists c', s'. repeat split; try done.
    apply Hna. injection Hc as <-. repeat constructor.
Defined.

(** C1 as stated fails: in the processed sample the sex column is not
    boolean-typed. *)
Lemma flchain_sex_not_boolean :
  @_Flchain.read_df no_literal true flchain_sample = Ok flchain_sample_processed /\
  exists sex', lookup_col "sex" (columns flchain_sample_processed) = Some sex' /\
               s_dtype sex' <> bool_.
Proof.
  split; [vm_compute; reflexivity|].
  eexists. split; [vm_compute; reflexivity | discriminate].
Qed.

(** C5.  In the processed flchain table the columns 'sample.yr' and
    'flc.grp' are there and categorical, and every other column is
    float32-typed. *)
Theorem flchain_processed_dtypes `{PyFloat} raw out :
  NoDup (column_names raw) ->
  _Flchain.read_df true raw = Ok out ->
  (forall name, name ∈ ["sample.yr"; "flc.grp"] -> name ∈ column_names out) /\
  forall name s, (name, s) ∈ columns out ->
    s_dtype s = if decide (name ∈ ["sample.yr"; "flc.grp"]) then category else float32.
Proof.
  intros Hnd Hrun. pose proof (flchain_NoDup_out raw out Hnd Hrun) as Hnd'.
  destruct (flchain_read_df_spec raw out Hnd Hrun)
    as (creatinine & _ & _ & _ & Hpresent & Hcols).
  split.
  - intros name Hname. apply Hpresent. by do 2 right.
  - intros name s Hin. apply (lookup_col_NoDup _ _ _ Hnd') in Hin.
    destruct (Hcols _ _ Hin) as (s0 & _ & Hcol). unfold flchain_column in Hcol.
    change ["sample.yr"; "flc.grp"] with _Flchain.categorical.
    destruct (decide (name = "sex")) as [->|Hnsex].
    + rewrite decide_False by by_decide. by rewrite Hcol.
    + destruct (decide (name ∈ _Flchain.categorical)); [by rewrite Hcol | by destruct Hcol].
Qed.

Lemma flchain_processed_dtypes_witness :
  s_dtype <$> lookup_col "sample.yr" (columns flchain_sample_processed) = Some category /\
  s_dtype <$> lookup_col "kappa" (columns flchain_sample_processed) = Some float32.
Proof.
  destruct (flchain_processed_dtypes (H := no_literal)
              flchain_sample flchain_sample_processed) as [_ Hdt].
  - by_decide.
  - vm_compute. reflexivity.
  - split.
    + destruct (lookup_col "sample.yr" (columns flchain_sample_processed))
        as [s|] eqn:Hs; [|by vm_compute in Hs].
      apply lookup_col_elem_of, Hdt in Hs. simpl. by rewrite Hs.
    + destruct (lookup_col "kappa" (columns flchain_sample_processed))
        as [s|] eqn:Hs; [|by vm_compute in Hs].
      apply lookup_col_elem_of, Hdt in Hs. simpl. by rewrite Hs.
Defined.

(** C10.  Row by row on the kept rows, the processed sex value is the
    float32 number 1.0 where the raw sex is the string 'M' and 0.0
    elsewhere. *)
Theorem flchain_processed_sex_values `{PyFloat} raw out :
  NoDup (column_names raw) ->
  _Flchain.read_df true raw = Ok out ->
  exists creatinine sex,
    lookup_col "creatinine" (columns raw) = Some creatinine /\
    lookup_col "sex" (columns raw) = Some sex /\
    lookup_col "sex" (columns out)
    = Some (mkSeries float32
              ((fun v => CFloat (if decide (v = CStr "M") then f32_one else f32_zero))
               <$> select (notna_mask creatinine) (s_values sex))).
Proof.
  intros Hnd Hrun.
  destruct (flchain_read_df_spec raw out Hnd Hrun)
    as (creatinine & Hcr & _ & _ & Hpresent & Hcols).
  assert (Hs : is_Some (lookup_col "sex" (columns out))).
  { apply lookup_col_is_Some, Hpresent. by_decide. }
  destruct Hs as [sex' Hs]. destruct (Hcols _ _ Hs) as (sex & Hsex & Hcol).
  exists creatinine, sex. split; [done|]. split; [done|].
  unfold flchain_column in Hcol. rewrite decide_True in Hcol by done.
  rewrite Hs, Hcol. do 2 f_equal. apply list_fmap_ext. intros _ v _. apply sex_code_M.
Qed.

Lemma flchain_processed_sex_values_witness :
  lookup_col "sex" (columns flchain_sample_processed)
  = Some (mkSeries float32 [CFloat f32_zero; CFloat f32_one]).
Proof.
  destruct (flchain_processed_sex_values (H := no_literal)
              flchain_sample flchain_sample_processed)
    as (c & s & Hc & Hs & Hout).
  - by_decide.
  - vm_compute. reflexivity.
  - injection Hc as <-. injection Hs as <-. exact Hout.
Defined.

(** ** Column labels through the transforms *)

Lemma for_each_cast_column_names (f : Series -> result Series) cols df out :
  for_each (cast_column f) cols df = Ok out ->
  index out = index df /\ column_names out = column_names df.
Proof.
  revert df. induction cols as [|col cols IH]; intros df H; simpl in H.
  - by injection H as <-.
  - inv_bind H as df1 Hdf1. unfold cast_column in Hdf1.
    inv_bind Hdf1 as c Hc. inv_bind Hdf1 as c' Hc'. injection Hdf1 as <-.
    apply getitem_Ok in Hc. apply IH in H as [-> ->]. split; [done|].
    rewrite names_setitem, decide_True; [done|].
    apply lookup_col_is_Some. by eexists.
Qed.

Lemma flchain_column_names `{PyFloat} raw out :
  _Flchain.read_df true raw = Ok out ->
  column_names out
  = filter (fun n => n ∉ ["chapter"; "Unnamed: 0"]) (column_names raw).
Proof.
  intros H0. unfold _Flchain.read_df in H0.
  inv_bind H0 as df1 Hdf1. apply drop_Ok in Hdf1 as [-> _].
  inv_bind H0 as mask Hmask.
  inv_bind H0 as df3 Hdf3. unfold assign in Hdf3. simpl in Hdf3.
  inv_bind Hdf3 as df3' Hdf3'. injection Hdf3 as ->.
  inv_bind Hdf3' as sex Hsex. inv_bind Hsex as sx Hsx.
  injection Hsex as <-. injection Hdf3' as <-. apply getitem_Ok in Hsx.
  inv_bind H0 as df4 Hdf4. apply for_each_cast_column_names in Hdf4 as [_ Hn4].
  inv_bind H0 as cols Hcols. apply for_each_cast_column_names in H0 as [_ ->].
  rewrite Hn4, names_setitem, decide_True
    by (apply lookup_col_is_Some; by eexists).
  unfold reset_index, column_names. cbn [columns].
  rewrite <- names_filter. apply names_loc_mask.
Qed.

Lemma lookup_col_filter_eq (label : string) name cols :
  lookup_col name (filter (fun c => c.1 = label) cols)
  = if decide (name = label) then lookup_col name cols else None.
Proof.
  induction cols as [|[n s] cols IH]; simpl.
  - by destruct (decide (name = label)).
  - rewrite filter_cons. simpl. destruct (decide (n = label)) as [->|Hn]; simpl.
    + destruct (decide (label = name)) as [<-|Hne]; [by rewrite decide_True|].
      rewrite IH. by destruct (decide (name = label)).
    + rewrite IH. destruct (decide (name = label)) as [->|Hp]; [|done].
      by rewrite decide_False.
Qed.

Lemma lookup_label_cols_at_end d e df name :
  lookup_col name (columns (_label_cols_at_end d e df))
  = lookup_col name (columns df).
Proof.
  unfold _label_cols_at_end. cbn [columns].
  rewrite !lookup_col_app, lookup_col_filter, !lookup_col_filter_eq.
  destruct (decide (name ∈ [d; e])) as [Hin|Hin].
  - destruct (decide (name = d)) as [->|Hd].
    + destruct (lookup_col d (columns df)) eqn:E; [done|].
      by destruct (decide (d = e)).
    + rewrite decide_True; [done|].
      apply elem_of_cons in Hin as [|Hin]; [done|].
      by apply list_elem_of_singleton in Hin.
  - destruct (lookup_col name (columns df)); [done|].
    by repeat case_decide.
Qed.

Lemma names_label_cols_at_end d e df name :
  name ∈ column_names (_label_cols_at_end d e df) <-> name ∈ column_names df.
Proof.
  unfold column_names. rewrite <- !lookup_col_is_Some.
  by rewrite lookup_label_cols_at_end.
Qed.

(** ** nwtco *)

Lemma elem_of_names_setitem df k s name :
  name ∈ column_names (setitem df k s) <-> name = k \/ name ∈ column_names df.
Proof.
  unfold column_names. rewrite <- !lookup_col_is_Some, lookup_setitem.
  destruct (decide (name = k)) as [->|Hne].
  - split; [by left | by eexists].
  - split; [by right | by intros [|]].
Qed.

Lemma nwtco_read_df_spec `{PyFloat} raw out :
  NoDup (column_names raw) ->
  _Nwtco.read_df true raw = Ok out ->
  exists instit histol study stage instit_2 histol_2 study_4,
    lookup_col "instit" (columns raw) = Some instit /\
    lookup_col "histol" (columns raw) = Some histol /\
    lookup_col "study" (columns raw) = Some study /\
    lookup_col "stage" (columns raw) = Some stage /\
    sub_scalar instit 1 = Ok instit_2 /\
    sub_scalar histol 1 = Ok histol_2 /\
    sub_scalar study 3 = Ok study_4 /\
    index out = index raw /\
    (forall name,
       name ∈ column_names out <->
       ((name ∉ ["Unnamed: 0"; "seqno"; "instit"; "histol"; "study"]) /\
        (name ∈ ["instit_2"; "histol_2"; "study_4"] \/ name ∈ column_names raw))) /\
    forall name s',
      lookup_col name (columns out) = Some s' ->
      if decide (name = "stage") then s' = astype_category stage
      else exists s, nwtco_source raw instit_2 histol_2 study_4 name = Some s /\
                     astype_float32 s = Ok s'.
Proof.
  intros Hnd H0. unfold _Nwtco.read_df in H0.
  inv_bind H0 as instit_2 Hi. inv_bind Hi as instit Hinstit.
  inv_bind H0 as histol_2 Hh. inv_bind Hh as histol Hhistol.
  inv_bind H0 as study_4 Hs. inv_bind Hs as study Hstudy.
  inv_bind H0 as stage' Hst. inv_bind Hst as stage Hstage. injection Hst as <-.
  apply getitem_Ok in Hinstit, Hhistol, Hstudy, Hstage.
  exists instit, histol, study, stage, instit_2, histol_2, study_4.
  do 7 (split; [done|]).
  inv_bind H0 as df1 Hdf1. cbn in Hdf1. injection Hdf1 as <-.
  set (df1 := setitem _ "stage" _) in H0.
  assert (Hcols1 : forall name,
    lookup_col name (columns df1)
    = if decide (name = "stage") then Some (astype_category stage)
      else nwtco_source raw instit_2 histol_2 study_4 name).
  { intros name. unfold df1, nwtco_source. by rewrite !lookup_setitem. }
  assert (Hnames1 : forall name,
    name ∈ column_names df1 <->
    name ∈ ["instit_2"; "histol_2"; "study_4"] \/ name ∈ column_names raw).
  { intros name. unfold df1. rewrite !elem_of_names_setitem.
    rewrite !elem_of_cons, elem_of_nil.
    assert (name = "stage" -> name ∈ column_names raw).
    { intros ->. apply lookup_col_is_Some. by eexists. }
    tauto. }
  assert (Hnd1 : NoDup (column_names df1)) by (by do 4 apply NoDup_setitem).
  assert (Hidx1 : index df1 = index raw) by reflexivity.
  clearbody df1.
  inv_bind H0 as df2 Hdf2. apply drop_Ok in Hdf2 as [-> _].
  set (dropped := ["Unnamed: 0"; "seqno"; "instit"; "histol"; "study"]) in *.
  inv_bind H0 as cols Hcols. apply index_drop_Ok in Hcols as [-> _].
  inv_bind H0 as df3 Hdf3. injection H0 as <-.
  unfold column_names in Hdf3 at 1. cbn [columns] in Hdf3.
  rewrite names_filter in Hdf3.
  apply for_each_cast_column in Hdf3 as (Hidx3 & Hnames3 & Hcols3);
    [|by do 2 apply NoDup_filter].
  unfold column_names in Hnames3 at 2. cbn [columns index] in *.
  rewrite names_filter in Hnames3.
  split; [by rewrite <- Hidx1|]. split.
  - intros name. rewrite names_label_cols_at_end, Hnames3.
    rewrite list_elem_of_filter. by rewrite Hnames1.
  - intros name s' Hs'. rewrite lookup_label_cols_at_end in Hs'.
    specialize (Hcols3 name). rewrite lookup_col_filter, Hcols1 in Hcols3.
    destruct (decide (name = "stage")) as [->|Hne].
    + rewrite decide_False in Hcols3.
      2:{ intros [Hst _]%list_elem_of_filter. apply Hst. left. }
      rewrite decide_False in Hcols3 by by_decide. congruence.
    + destruct (decide (name ∈ dropped)) as [Hdr|Hdr].
      * rewrite decide_False in Hcols3; [congruence|].
        intros [_ [Hd _]%list_elem_of_filter]%list_elem_of_filter. done.
      * destruct (decide (name ∈ _)) as [Hin|Hin].
        -- destruct Hcols3 as (s & s'' & Hsrc & Hcast & Hout).
           exists s. split; [done | congruence].
        -- exfalso. apply Hin. rewrite !list_elem_of_filter.
           split; [by rewrite list_elem_of_singleton|]. split; [done|].
           apply lookup_col_is_Some. rewrite Hcols1, decide_False by done.
           rewrite <- Hcols3, Hs'. by eexists.
Qed.

(** ** Integers up to 2^24 are float32 numbers *)

Lemma digits2_pos_le m n :
  0 <= n -> Z.pos m < 2 ^ n -> Z.pos (digits2_pos m) <= n.
Proof.
  revert n. induction m as [m IH|m IH|]; intros n Hn Hm; simpl.
  - destruct (decide (n = 0)) as [->|Hn0]; [simpl in Hm; lia|].
    replace n with (Z.succ (n - 1)) in Hm by lia.
    rewrite Z.pow_succ_r in Hm by lia.
    specialize (IH (n - 1)). lia.
  - destruct (decide (n = 0)) as [->|Hn0]; [simpl in Hm; lia|].
    replace n with (Z.succ (n - 1)) in Hm by lia.
    rewrite Z.pow_succ_r in Hm by lia.
    specialize (IH (n - 1)). lia.
  - destruct (decide (n = 0)) as [->|Hn0]; [simpl in Hm; lia|lia].
Qed.

Lemma iter_xO_digits m k :
  digits2_pos (Pos.iter xO m k) = (digits2_pos m + k)%positive.
Proof.
  induction k as [|k IH] using Pos.peano_ind.
  - simpl. lia.
  - rewrite Pos.iter_succ. simpl. rewrite IH. lia.
Qed.

Lemma iter_xO_val m k : Z.pos (Pos.iter xO m k) = Z.pos m * 2 ^ Z.pos k.
Proof.
  induction k as [|k IH] using Pos.peano_ind.
  - simpl. lia.
  - rewrite Pos.iter_succ, Pos2Z.inj_succ, Z.pow_succ_r by lia.
    rewrite Pos2Z.inj_xO, IH. lia.
Qed.

Lemma binary_round_aux_canonical s mz ez :
  Z.pos (digits2_pos mz) = 24 -> -149 <= ez <= 104 ->
  binary_round_aux 24 128 s (Z.pos mz) ez loc_Exact = S754_finite s mz ez.
Proof.
  intros Hd He.
  assert (Hshr : shr_fexp 24 128 (Z.pos mz) ez loc_Exact
                 = ({| shr_m := Z.pos mz; shr_r := false; shr_s := false |}, ez)).
  { unfold shr_fexp, fexp, emin. cbn [Zdigits2]. rewrite Hd.
    replace (Z.max (24 + ez - 24) (3 - 128 - 24) - ez) with 0 by lia.
    reflexivity. }
  unfold binary_round_aux. rewrite Hshr. cbn [shr_m loc_of_shr_record round_nearest_even].
  rewrite Hshr. cbn [shr_m].
  replace (ez <=? 128 - 24) with true by (symmetry; apply Z.leb_le; lia).
  reflexivity.
Qed.

Lemma binary_round_small s m :
  Z.pos m < 2 ^ 24 ->
  exists mz ez, binary_round 24 128 s m 0 = S754_finite s mz ez /\
                -23 <= ez <= 0 /\ Z.pos mz = Z.pos m * 2 ^ (- ez).
Proof.
  intros Hm. pose proof (digits2_pos_le m 24 ltac:(lia) Hm) as Hd.
  unfold binary_round, shl_align, fexp, emin.
  replace (Z.max (Z.pos (digits2_pos m) + 0 - 24) (3 - 128 - 24))
    with (Z.pos (digits2_pos m) - 24) by lia.
  destruct (Z.pos (digits2_pos m) - 24 - 0) as [|k|k] eqn:Hk; [|lia|].
  - exists m, 0. split; [|split; [lia | simpl; lia]].
    replace (Z.pos (digits2_pos m) - 24) with 0 by lia.
    apply binary_round_aux_canonical; lia.
  - exists (Pos.iter xO m k), (Z.pos (digits2_pos m) - 24). split.
    + apply binary_round_aux_canonical; [|lia].
      rewrite iter_xO_digits. lia.
    + split; [lia|]. rewrite iter_xO_val. f_equal. f_equal. lia.
Qed.

Lemma float_to_Z_finite s mz ez m :
  ez <= 0 -> Z.pos mz = Z.pos m * 2 ^ (- ez) ->
  float_to_Z (S754_finite s mz ez) = Some (cond_Zopp s (Z.pos m)).
Proof.
  intros He Hv. unfold float_to_Z.
  destruct (Z.leb_spec 0 ez) as [H0|H0].
  - replace ez with 0 in * by lia. simpl in Hv. do 2 f_equal. lia.
  - rewrite Hv, Z.mod_mul, Z.eqb_refl by lia.
    rewrite Z.div_mul by lia. reflexivity.
Qed.

Lemma f32_of_Z_exact z :
  Z.abs z <= 2 ^ 24 -> float_to_Z (f32_of_Z z) = Some z.
Proof.
  intros Hz. destruct (decide (Z.abs z = 2 ^ 24)) as [Heq|Hne].
  - destruct (Z.abs_eq_or_opp z) as [E|E]; rewrite E in Heq.
    + subst z. by vm_compute.
    + replace z with (- 2 ^ 24) by lia. by vm_compute.
  - unfold f32_of_Z, binary_normalize. destruct z as [|m|m]; [done| |].
    + destruct (binary_round_small false m) as (mz & ez & -> & He & Hv); [lia|].
      apply (float_to_Z_finite false); [lia | done].
    + destruct (binary_round_small true m) as (mz & ez & -> & He & Hv); [lia|].
      apply (float_to_Z_finite true); [lia | done].
Qed.

(** ** nwtco: the claims *)

Lemma sub_scalar_Ok s k s2 :
  sub_scalar s k = Ok s2 ->
  mapM (cell_sub (s_dtype s) k) (s_values s) = Ok (s_values s2).
Proof.
  unfold sub_scalar. intros H0.
  destruct (s_dtype s); try discriminate;
    inv_bind H0 as vs Hvs; by injection H0 as <-.
Qed.

Lemma wrap64_small x : - 2 ^ 63 <= x < 2 ^ 63 -> wrap64 x = x.
Proof. intros Hx. unfold wrap64. rewrite Z.mod_small; lia. Qed.

Lemma shifted_int_exact `{PyFloat} dt k z v' :
  shifted dt k (CInt z) v' -> Z.abs (z - k) <= 2 ^ 24 ->
  exists f, v' = CFloat f /\ float_to_Z f = Some (z - k).
Proof.
  intros (u & Hu & Hv') Hz. simpl in Hu. injection Hu as <-.
  simpl in Hv'. injection Hv' as <-. eexists. split; [done|].
  destruct (decide (dt = object_)); [by apply f32_of_Z_exact|].
  rewrite wrap64_small by lia. by apply f32_of_Z_exact.
Qed.

Lemma shifted_series `{PyFloat} s k s2 s' :
  sub_scalar s k = Ok s2 -> astype_float32 s2 = Ok s' ->
  s_dtype s' = float32 /\
  Forall2 (fun v v' =>
             shifted (s_dtype s) k v v' /\
             forall z, v = CInt z -> Z.abs (z - k) <= 2 ^ 24 ->
                       exists f, v' = CFloat f /\ float_to_Z f = Some (z - k))
          (s_values s) (s_values s').
Proof.
  intros Hsub%sub_scalar_Ok [Hdt Hcast]%astype_float32_Ok. split; [done|].
  apply mapM_Ok in Hsub, Hcast. revert Hcast. generalize (s_values s').
  induction Hsub as [|v u vs us Hv _ IH]; intros vs' Hcast.
  - inversion Hcast. constructor.
  - inversion Hcast as [|? v' ? vs'' Hv' Hcast']; subst.
    constructor; [|by apply IH].
    assert (Hsh : shifted (s_dtype s) k v v') by (by exists u).
    split; [done|]. intros z -> Hz. by eapply shifted_int_exact.
Qed.

(** C2, as the code has it.  Row by row, the derived columns instit_2,
    histol_2 and study_4 of the processed nwtco table hold the float32
    cast of raw instit minus 1, histol minus 1 and study minus 3; for an
    integer entry with |raw - offset| <= 2^24 that is the difference
    itself.  The columns instit, histol and study are not in the output. *)
Theorem nwtco_shifted_columns `{PyFloat} raw out :
  NoDup (column_names raw) ->
  _Nwtco.read_df true raw = Ok out ->
  (forall col col' k,
     (col, col', k) ∈ [("instit", "instit_2", 1); ("histol", "histol_2", 1);
                       ("study", "study_4", 3)] ->
     exists s s',
       lookup_col col (columns raw) = Some s /\
       lookup_col col' (columns out) = Some s' /\
       s_dtype s' = float32 /\
       Forall2 (fun v v' =>
                  shifted (s_dtype s) k v v' /\
                  forall z, v = CInt z -> Z.abs (z - k) <= 2 ^ 24 ->
                            exists f, v' = CFloat f /\ float_to_Z f = Some (z - k))
               (s_values s) (s_values s')) /\
  (forall col, col ∈ ["instit"; "histol"; "study"] -> col ∉ column_names out).
Proof.
  intros Hnd Hrun.
  destruct (nwtco_read_df_spec raw out Hnd Hrun)
    as (instit & histol & study & stage & instit_2 & histol_2 & study_4
        & Hi & Hh & Hs & _ & Hi2 & Hh2 & Hs4 & _ & Hnames & Hcols).
  assert (Hderived : forall col' s2,
    col' ∈ ["instit_2"; "histol_2"; "study_4"] ->
    nwtco_source raw instit_2 histol_2 study_4 col' = Some s2 ->
    exists s', lookup_col col' (columns out) = Some s' /\ astype_float32 s2 = Ok s').
  { intros col' s2 Hcol' Hsrc.
    assert (Hin : is_Some (lookup_col col' (columns out))).
    { apply lookup_col_is_Some, Hnames. split; [|by left].
      revert Hcol'. rewrite !elem_of_cons, !elem_of_nil.
      intros [->|[->|[->|[]]]]; by_decide. }
    destruct Hin as [s' Hs']. exists s'. split; [done|].
    specialize (Hcols _ _ Hs'). rewrite decide_False in Hcols.
    2:{ intros ->. revert Hcol'. by_decide. }
    destruct Hcols as (s0 & Hs0 & Hcast). congruence. }
  split.
  - intros col col' k Hin.
    rewrite !elem_of_cons, elem_of_nil in Hin.
    destruct Hin as [[= -> -> ->]|[[= -> -> ->]|[[= -> -> ->]|[]]]].
    + destruct (Hderived "instit_2" instit_2) as (s' & Hs' & Hcast);
        [by_decide | done |].
      exists instit, s'. split; [done|]. split; [done|]. by eapply shifted_series.
    + destruct (Hderived "histol_2" histol_2) as (s' & Hs' & Hcast);
        [by_decide | done |].
      exists histol, s'. split; [done|]. split; [done|]. by eapply shifted_series.
    + destruct (Hderived "study_4" study_4) as (s' & Hs' & Hcast);
        [by_decide | done |].
      exists study, s'. split; [done|]. split; [done|]. by eapply shifted_series.
  - intros col Hcol [Hnd' _]%Hnames. apply Hnd'.
    revert Hcol. rewrite !elem_of_cons, !elem_of_nil. tauto.
Qed.

Lemma nwtco_shifted_columns_witness :
  lookup_col "instit_2" (columns nwtco_sample_processed)
  = Some (mkSeries float32 [CFloat f32_one; CFloat f32_zero]) /\
  "instit" ∉ column_names nwtco_sample_processed.
Proof.
  destruct (nwtco_shifted_columns (H := no_literal)
              nwtco_sample nwtco_sample_processed) as [Hshift Habsent].
  - by_decide.
  - vm_compute. reflexivity.
  - split; [|apply Habsent; by_decide].
    destruct (Hshift "instit" "instit_2" 1) as (s & s' & _ & Hs' & _); [by_decide|].
    rewrite Hs'. vm_compute in Hs'. by injection Hs' as <-.
Defined.

(** C2 as stated fails beyond 2^24: the raw institution code 16777218
    gives 16777216.0 in instit_2, not 16777217. *)
Lemma nwtco_shift_rounds :
  @_Nwtco.read_df no_literal true nwtco_large = Ok nwtco_large_processed /\
  s_values <$> lookup_col "instit" (columns nwtco_large)
  = Some [CInt 16777218; CInt 1] /\
  exists f f',
    s_values <$> lookup_col "instit_2" (columns nwtco_large_processed)
    = Some [CFloat f; CFloat f'] /\
    float_to_Z f = Some 16777216 /\ 16777216 <> 16777218 - 1.
Proof.
  split; [vm_compute; reflexivity|]. split; [reflexivity|].
  eexists _, _. split; [vm_compute; reflexivity|]. split; [reflexivity | lia].
Qed.

Lemma nwtco_column_names `{PyFloat} raw out name :
  _Nwtco.read_df true raw = Ok out ->
  name ∈ column_names out <->
  (name ∉ ["Unnamed: 0"; "seqno"; "instit"; "histol"; "study"]) /\
  (name ∈ ["instit_2"; "histol_2"; "study_4"] \/ name ∈ column_names raw).
Proof.
  intros H0. unfold _Nwtco.read_df in H0.
  inv_bind H0 as instit_2 Hi. inv_bind H0 as histol_2 Hh.
  inv_bind H0 as study_4 Hs.
  inv_bind H0 as stage' Hst. inv_bind Hst as stage Hstage. injection Hst as <-.
  apply getitem_Ok in Hstage.
  inv_bind H0 as df1 Hdf1. cbn in Hdf1. injection Hdf1 as <-.
  inv_bind H0 as df2 Hdf2. apply drop_Ok in Hdf2 as [-> _].
  inv_bind H0 as cols Hcols.
  inv_bind H0 as df3 Hdf3. injection H0 as <-.
  apply for_each_cast_column_names in Hdf3 as [_ Hn3].
  rewrite names_label_cols_at_end, Hn3.
  unfold column_names at 1. cbn [columns]. rewrite names_filter.
  rewrite list_elem_of_filter.
  fold (column_names (setitem
    (setitem (setitem (setitem raw "instit_2" instit_2) "histol_2" histol_2)
       "study_4" study_4) "stage" (astype_category stage))).
  rewrite !elem_of_names_setitem, !elem_of_cons, !elem_of_nil.
  assert (name = "stage" -> name ∈ column_names raw).
  { intros ->. apply lookup_col_is_Some. by eexists. }
  tauto.
Qed.

(** ** gbsg and rotterdam, and the claims on every dataset *)

(** C4.  With [processed=False] every loader hands the raw table back as
    it is: the result is the raw table, and on references it is the very
    frame that was passed, on an unchanged heap. *)
Theorem read_df_raw_unmodified `{PyFloat} (d : dataset) (raw : DataFrame) :
  read_df d false raw = Ok raw /\
  forall (h : heap) (l : nat), read_df_obj d false l h = (Ok l, h).
Proof. by destruct d. Qed.

(** C6.  The processed transforms of gbsg and rotterdam drop their listed
    columns and nothing else: the index is the raw one and the columns are
    the raw columns outside the list, as they are and in their order. *)
Theorem gbsg_rotterdam_only_drop `{PyFloat} d labels raw out :
  (d, labels) ∈ [(Gbsg, ["Unnamed: 0"; "pid"]);
                 (Rotterdam, ["Unnamed: 0"; "pid"; "year"; "dtime"; "death"; "chemo"])] ->
  read_df d true raw = Ok out ->
  index out = index raw /\
  columns out = filter (fun c => c.1 ∉ labels) (columns raw) /\
  forall name, name ∉ labels ->
    lookup_col name (columns out) = lookup_col name (columns raw).
Proof.
  rewrite !elem_of_cons, elem_of_nil.
  intros [[= -> ->]|[[= -> ->]|[]]] Hrun; simpl in Hrun;
    apply drop_Ok in Hrun as [-> _]; (split; [done|]); (split; [done|]);
    intros name Hname; cbn [columns]; rewrite lookup_col_filter;
    by rewrite decide_False.
Qed.

Lemma gbsg_rotterdam_only_drop_witness :
  index rotterdam_sample_processed = index rotterdam_sample /\
  lookup_col "size" (columns rotterdam_sample_processed)
  = Some (mkSeries object_ [CStr "<=20"; CStr "20-50"]).
Proof.
  destruct (gbsg_rotterdam_only_drop (H := no_literal) Rotterdam
              ["Unnamed: 0"; "pid"; "year"; "dtime"; "death"; "chemo"]
              rotterdam_sample rotterdam_sample_processed)
    as (Hidx & _ & Hcols).
  - by_decide.
  - vm_compute. reflexivity.
  - split; [done|]. rewrite Hcols by by_decide. reflexivity.
Defined.

(** C8.  A processed table still has the columns named by the loader's
    [col_duration] and [col_event] when the raw table has them; rotterdam
    loses 'dtime' and 'death' and keeps 'rtime' and 'recur'. *)
Theorem label_columns_kept `{PyFloat} d raw out :
  col_duration d ∈ column_names raw ->
  col_event d ∈ column_names raw ->
  read_df d true raw = Ok out ->
  col_duration d ∈ column_names out /\
  col_event d ∈ column_names out /\
  (d = Rotterdam ->
   "rtime" ∈ column_names out /\ "recur" ∈ column_names out /\
   ("dtime" ∉ column_names out) /\ ("death" ∉ column_names out)).
Proof.
  intros Hdur Hev Hrun. destruct d; simpl in *.
  - apply flchain_column_names in Hrun as ->.
    rewrite !list_elem_of_filter.
    repeat split; try done; try discriminate; by_decide.
  - repeat split; try discriminate;
      apply (nwtco_column_names raw out _ Hrun); (split; [by_decide | by right]).
  - apply drop_Ok in Hrun as [-> _]. unfold column_names. cbn [columns].
    rewrite names_filter, !list_elem_of_filter.
    repeat split; try done; try discriminate; by_decide.
  - apply drop_Ok in Hrun as [-> _]. unfold column_names. cbn [columns].
    rewrite names_filter, !list_elem_of_filter.
    repeat split; try done; try by_decide;
      intros _ [Hd _]%list_elem_of_filter; apply Hd; by_decide.
Qed.

Lemma label_columns_kept_witness :
  "rtime" ∈ column_names rotterdam_sample_processed /\
  "recur" ∈ column_names rotterdam_sample_processed /\
  ("dtime" ∉ column_names rotterdam_sample_processed) /\
  ("death" ∉ column_names rotterdam_sample_processed).
Proof.
  destruct (label_columns_kept (H := no_literal) Rotterdam
              rotterdam_sample rotterdam_sample_processed) as (_ & _ & Hrot).
  - by_decide.
  - by_decide.
  - vm_compute. reflexivity.
  - by apply Hrot.
Defined.

(** ** The registry lookup *)

Lemma elem_of_select {A : Type} (mask : list cell) (l : list A) (x : A) :
  x ∈ select mask l <->
  exists i : nat, mask !! i = Some (CBool true) /\ l !! i = Some x.
Proof.
  revert l. induction mask as [|m mask IH]; intros l; simpl.
  - split; [by intros ?%elem_of_nil | by intros (i & ? & _)].
  - destruct l as [|y l].
    + split; [by intros ?%elem_of_nil | by intros (i & _ & ?)].
    + destruct (decide (m = CBool true)) as [->|Hm].
      * rewrite elem_of_cons, IH. split.
        -- intros [->|(i & Hi & Hx)]; [by exists 0%nat | by exists (S i)].
        -- intros ([|i] & Hi & Hx); [left; simpl in Hx; congruence|].
           right. by exists i.
      * rewrite IH. split.
        -- intros (i & Hi & Hx). by exists (S i).
        -- intros ([|i] & Hi & Hx); [simpl in Hi; congruence|]. by exists i.
Qed.

(** The index of [datasets]: the items listed under the package. *)
Lemma registry_index package reg pkg item datasets :
  lookup_col "Package" (columns reg) = Some pkg ->
  lookup_col "Item" (columns reg) = Some item ->
  (getitem reg "Package" ≫= fun p => set_index "Item" (loc_mask reg (eq_str p package)))
  = Ok datasets ->
  forall name,
    CStr name ∈ index datasets <->
    exists i : nat, s_values pkg !! i = Some (CStr package)
                    /\ s_values item !! i = Some (CStr name).
Proof.
  intros Hpkg Hitem Hds name. apply getitem_Ok in Hpkg. rewrite Hpkg in Hds.
  simpl in Hds. unfold set_index in Hds. inv_bind Hds as c Hc.
  injection Hds as <-. cbn [index]. apply getitem_Ok in Hc.
  rewrite lookup_loc_mask, Hitem in Hc. injection Hc as <-. cbn [s_values].
  rewrite elem_of_select. unfold eq_str. cbn [s_values].
  split; intros (i & Hi & Hx); exists i; (split; [|done]).
  - rewrite list_lookup_fmap in Hi.
    destruct (s_values pkg !! i) as [[| | |s|]|]; simpl in Hi; try done.
    injection Hi as Hi. by apply bool_decide_eq_true in Hi as ->.
  - rewrite list_lookup_fmap, Hi. simpl. by rewrite bool_decide_eq_true_2.
Qed.

Lemma stateT_bind_eq {S A B : Type} (m : stateT S A) (f : A -> stateT S B) s :
  (m ≫= f) s
  = match m s with
    | (Ok a, s') => f a s'
    | (Raise e, s') => (Raise e, s')
    end.
Proof. reflexivity. Qed.

Lemma download_unlisted package name w reg pkg item :
  web w !! registry_url = Some reg ->
  lookup_col "Package" (columns reg) = Some pkg ->
  lookup_col "Item" (columns reg) = Some item ->
  (forall i : nat, ~ (s_values pkg !! i = Some (CStr package)
                      /\ s_values item !! i = Some (CStr name))) ->
  download_from_rdatasets package name w
  = (Raise (ValueError ("Dataset " +:+ name +:+ " not found.")), w).
Proof.
  intros Hweb Hpkg Hitem Hrows. unfold download_from_rdatasets.
  rewrite stateT_bind_eq. cbn [read_csv]. rewrite Hweb.
  rewrite stateT_bind_eq. unfold lift at 1.
  destruct (getitem reg "Package" ≫= _) as [datasets|e] eqn:Hds.
  - rewrite bool_decide_eq_false_2; [done|].
    rewrite (registry_index _ _ _ _ _ Hpkg Hitem Hds). intros (i & Hi). by eapply Hrows.
  - exfalso. apply getitem_Ok in Hpkg. rewrite Hpkg in Hds. simpl in Hds.
    unfold set_index in Hds.
    assert (Hc : is_Some (lookup_col "Item"
                            (columns (loc_mask reg (eq_str pkg package)))))
      by (rewrite lookup_loc_mask, Hitem; by eexists).
    destruct Hc as [c Hc]. apply getitem_Ok in Hc. by rewrite Hc in Hds.
Qed.

(** C3.  When the registry lists no row with the package and the item,
    [download_from_rdatasets] raises the not-found [ValueError] and leaves
    the state as it found it, the cache files included; so does a loader's
    [_download], which never reaches its [to_feather]. *)
Theorem download_not_found package name w reg pkg item :
  web w !! registry_url = Some reg ->
  lookup_col "Package" (columns reg) = Some pkg ->
  lookup_col "Item" (columns reg) = Some item ->
  (forall i : nat, ~ (s_values pkg !! i = Some (CStr package)
                      /\ s_values item !! i = Some (CStr name))) ->
  download_from_rdatasets package name w
  = (Raise (ValueError ("Dataset " +:+ name +:+ " not found.")), w) /\
  (package = "survival" ->
   forall self_path,
     _DatasetRdatasetsSurvival._download name self_path w
     = (Raise (ValueError ("Dataset " +:+ name +:+ " not found.")), w)).
Proof.
  intros Hweb Hpkg Hitem Hrows.
  pose proof (download_unlisted _ _ _ _ _ _ Hweb Hpkg Hitem Hrows) as Hdl.
  split; [done|]. intros -> self_path.
  unfold _DatasetRdatasetsSurvival._download.
  by rewrite stateT_bind_eq, Hdl.
Qed.

Lemma download_not_found_witness :
  _DatasetRdatasetsSurvival._download "acme" "data/acme.feather" world_sample
  = (Raise (ValueError "Dataset acme not found."), world_sample).
Proof.
  refine (proj2 (download_not_found "survival" "acme" world_sample registry_sample
                   _ _ _ _ _ _) eq_refl "data/acme.feather").
  - reflexivity.
  - reflexivity.
  - reflexivity.
  - intros [|[|[|i]]] [Hp Hi]; by vm_compute in Hp, Hi.
Defined.

(** C9.  The lookup is scoped by the package: an item that the registry
    lists under other packages only is not found. *)
Theorem registry_lookup_package_scoped package name w reg pkg item :
  web w !! registry_url = Some reg ->
  lookup_col "Package" (columns reg) = Some pkg ->
  lookup_col "Item" (columns reg) = Some item ->
  (forall i : nat, s_values item !! i = Some (CStr name) ->
                   s_values pkg !! i <> Some (CStr package)) ->
  (download_from_rdatasets package name w).1
  = Raise (ValueError ("Dataset " +:+ name +:+ " not found.")).
Proof.
  intros Hweb Hpkg Hitem Hother.
  rewrite (download_unlisted _ _ _ _ _ _ Hweb Hpkg Hitem); [done|].
  intros i [Hp Hi]. by apply (Hother i).
Qed.

Lemma registry_lookup_package_scoped_witness :
  s_values <$> lookup_col "Item" (columns registry_sample)
  = Some [CStr "flchain"; CStr "acme"; CStr "nwtco"] /\
  (download_from_rdatasets "survival" "acme" world_sample).1
  = Raise (ValueError "Dataset acme not found.").
Proof.
  split; [reflexivity|].
  refine (registry_lookup_package_scoped "survival" "acme" world_sample
            registry_sample _ _ _ _ _ _).
  - reflexivity.
  - reflexivity.
  - reflexivity.
  - intros [|[|[|i]]] Hi Hp; by vm_compute in Hp, Hi.
Defined.

(** ** Frames as objects: each call on references computes what the call
    on values computes, and changes no frame but the one it has built *)

Lemma deref_Some (g : heap) r v : g !! r = Some v -> deref r g = (Ok v, g).
Proof. intros Hr. unfold deref. by rewrite (list_lookup_total_correct _ _ _ Hr). Qed.

Lemma method_eq f (g : heap) r v :
  g !! r = Some v ->
  method f r g
  = match f v with
    | Ok v' => (Ok (length g), g ++ [v'])
    | Raise e => (Raise e, g)
    end.
Proof.
  intros Hr. unfold method. rewrite stateT_bind_eq, (deref_Some _ _ _ Hr).
  rewrite stateT_bind_eq. unfold lift. by destruct (f v).
Qed.

Lemma getitem_obj_eq (g : heap) r v name :
  g !! r = Some v -> getitem_obj r name g = (getitem v name, g).
Proof.
  intros Hr. unfold getitem_obj. by rewrite stateT_bind_eq, (deref_Some _ _ _ Hr).
Qed.

Lemma columns_obj_eq (g : heap) r v :
  g !! r = Some v -> columns_obj r g = (Ok (column_names v), g).
Proof.
  intros Hr. unfold columns_obj. by rewrite stateT_bind_eq, (deref_Some _ _ _ Hr).
Qed.

Lemma setitem_obj_eq (g : heap) r v name s :
  g !! r = Some v ->
  setitem_obj r name s g = (Ok (), <[r := setitem v name s]> g).
Proof.
  intros Hr. unfold setitem_obj. by rewrite stateT_bind_eq, (deref_Some _ _ _ Hr).
Qed.

Lemma cast_column_obj_eq f (g : heap) r v col :
  g !! r = Some v ->
  cast_column_obj f r col g
  = match cast_column f v col with
    | Ok v' => (Ok (), <[r := v']> g)
    | Raise e => (Raise e, g)
    end.
Proof.
  intros Hr. unfold cast_column_obj, cast_column.
  rewrite stateT_bind_eq, (getitem_obj_eq _ _ _ _ Hr).
  destruct (getitem v col) as [c|e]; [|done]. simpl.
  rewrite stateT_bind_eq. unfold lift.
  destruct (f c) as [c'|e]; [|done]. simpl.
  by rewrite (setitem_obj_eq _ _ _ _ _ Hr).
Qed.

(** A cast loop on the frame at [r]: the loop on values decides how it
    ends, and only the frame at [r] changes. *)
Lemma for_m_cast_eq f cols (g : heap) r v :
  g !! r = Some v ->
  exists v'',
    for_m (cast_column_obj f r) cols g
    = (match for_each (cast_column f) cols v with
       | Ok _ => Ok ()
       | Raise e => Raise e
       end, <[r := v'']> g)
    /\ forall v', for_each (cast_column f) cols v = Ok v' -> v'' = v'.
Proof.
  revert g v. induction cols as [|col cols IH]; intros g v Hr; simpl.
  - exists v. split; [|by intros v' [= <-]].
    by rewrite (list_insert_id _ _ _ Hr).
  - rewrite stateT_bind_eq, (cast_column_obj_eq _ _ _ _ _ Hr).
    destruct (cast_column f v col) as [v1|e]; simpl.
    + assert (Hr1 : <[r := v1]> g !! r = Some v1).
      { apply list_lookup_insert_eq. by eapply lookup_lt_Some. }
      destruct (IH _ _ Hr1) as (v'' & -> & Hv''). exists v''.
      by rewrite list_insert_insert_eq.
    + exists v. split; [|done]. by rewrite (list_insert_id _ _ _ Hr).
Qed.

(** [assign] on references: the keyword values read the copy and do not
    change the heap. *)
Lemma assign_obj_eq kwargs_obj kwargs (g : heap) r v :
  Forall2 (fun ko kv =>
             ko.1 = kv.1 /\
             forall (g' : heap) data x, g' !! data = Some x ->
                                        ko.2 data g' = (kv.2 x, g'))
          kwargs_obj kwargs ->
  g !! r = Some v ->
  exists v'',
    assign_obj kwargs_obj r g
    = (match assign kwargs v with
       | Ok _ => Ok (length g)
       | Raise e => Raise e
       end, g ++ [v''])
    /\ forall v', assign kwargs v = Ok v' -> v'' = v'.
Proof.
  intros Hkw Hr. unfold assign_obj, assign.
  rewrite stateT_bind_eq, (deref_Some _ _ _ Hr). rewrite stateT_bind_eq.
  unfold new at 1.
  assert (Hloop : forall x,
    exists v'',
      for_m (fun kv => s ← kv.2 (length g); setitem_obj (length g) kv.1 s)
            kwargs_obj (g ++ [x])
      = (match for_each (fun data kv => s ← kv.2 data; Ok (setitem data kv.1 s))
                        kwargs x with
         | Ok _ => Ok ()
         | Raise e => Raise e
         end, g ++ [v''])
      /\ forall v', for_each (fun data kv => s ← kv.2 data; Ok (setitem data kv.1 s))
                             kwargs x = Ok v' -> v'' = v').
  { induction Hkw as [|[k1 fo] [k2 fv] kos kvs [Hk Hv] _ IH]; intros x.
    - exists x. split; [done | by intros v' [= <-]].
    - simpl in Hk, Hv. subst k2. cbn [for_m for_each fst snd].
      rewrite !stateT_bind_eq.
      rewrite (Hv (g ++ [x]) (length g) x) by apply list_lookup_middle, eq_refl.
      destruct (fv x) as [s|e]; [|by exists x].
      rewrite (setitem_obj_eq _ _ x) by apply list_lookup_middle, eq_refl.
      replace (<[length g := setitem x k1 s]> (g ++ [x]))
        with (g ++ [setitem x k1 s]).
      2:{ replace (length g) with (length g + 0)%nat at 1 by lia.
          by rewrite insert_app_r. }
      apply IH. }
  destruct (Hloop v) as (v'' & Hrun & Hv''). exists v''. split; [|done].
  rewrite stateT_bind_eq, Hrun.
  by destruct (for_each _ kwargs v).
Qed.

Lemma prefix_insert_fresh (h g : heap) r x :
  h `prefix_of` g -> (length h <= r)%nat -> h `prefix_of` <[r := x]> g.
Proof.
  intros [k ->] Hr. exists (<[(r - length h)%nat := x]> k).
  by rewrite insert_app_r_alt.
Qed.

Lemma lookup_new (g : heap) v : (g ++ [v]) !! length g = Some v.
Proof. by apply list_lookup_middle. Qed.

Lemma lookup_stored (g : heap) r v v' :
  g !! r = Some v -> <[r := v']> g !! r = Some v'.
Proof. intros Hr. apply list_lookup_insert_eq. by eapply lookup_lt_Some. Qed.

Lemma bind_Ok_eq {A B : Type} (a : A) (f : A -> result B) : Ok a ≫= f = f a.
Proof. reflexivity. Qed.

Lemma bind_Raise_eq {A B : Type} (e : exn) (f : A -> result B) :
  Raise e ≫= f = Raise e.
Proof. reflexivity. Qed.

Lemma computes_Raise (h g : heap) e :
  h `prefix_of` g -> computes h (Raise e) (Raise e, g).
Proof. by split. Qed.

Lemma computes_Ok (h g : heap) out l' :
  h `prefix_of` g -> g !! l' = Some out -> computes h (Ok out) (Ok l', g).
Proof. by split. Qed.

(** One step of the body on values ended in [Ok] or in [Raise]. *)
Ltac val_step := rewrite ?bind_Ok_eq, ?bind_Raise_eq; cbv beta iota.

Lemma flchain_read_df_obj `{PyFloat} processed (h : heap) l raw :
  h !! l = Some raw ->
  computes h (_Flchain.read_df processed raw) (_Flchain.read_df_obj processed l h).
Proof.
  intros Hl. unfold _Flchain.read_df, _Flchain.read_df_obj.
  destruct processed; [|by apply computes_Ok].
  generalize _Flchain.categorical. intros cats.
  rewrite stateT_bind_eq, (method_eq _ _ _ _ Hl).
  destruct (drop _ raw) as [df1|e]; val_step; [|by apply computes_Raise].
  rewrite stateT_bind_eq, stateT_bind_eq, (getitem_obj_eq _ _ _ _ (lookup_new h df1)).
  destruct (getitem df1 "creatinine") as [c|e]; val_step;
    [|by apply computes_Raise, prefix_app_r].
  unfold mret at 1, stateT_ret at 1. cbv beta iota.
  rewrite stateT_bind_eq, (method_eq _ _ _ _ (lookup_new h df1)).
  rewrite stateT_bind_eq, (method_eq _ _ _ _ (lookup_new (h ++ [df1]) _)).
  set (df3 := reset_index _). set (g3 := (h ++ [df1]) ++ [_]).
  assert (Hg3 : h `prefix_of` g3 ++ [df3]) by (by do 3 apply prefix_app_r).
  rewrite stateT_bind_eq.
  edestruct (assign_obj_eq
    [("sex", fun x => c ← getitem_obj x "sex"; mret (eq_str c "M"))]
    [("sex", fun x => c ← getitem x "sex"; Ok (eq_str c "M"))]
    (g3 ++ [df3]) (length g3) df3) as (v4 & -> & Hv4); [| apply lookup_new |].
  { repeat constructor. intros g' data x Hx. cbn [snd].
    rewrite stateT_bind_eq, (getitem_obj_eq _ _ _ _ Hx).
    by destruct (getitem x "sex"). }
  destruct (assign _ df3) as [df4|e]; val_step;
    [|by apply computes_Raise, prefix_app_r].
  rewrite (Hv4 df4 eq_refl). clear v4 Hv4.
  set (g4 := g3 ++ [df3]). set (r := length g4).
  assert (Hr : (length h <= r)%nat).
  { unfold r, g4, g3. rewrite !length_app. lia. }
  assert (Hg4 : h `prefix_of` g4 ++ [df4]) by (by apply prefix_app_r).
  rewrite stateT_bind_eq.
  destruct (for_m_cast_eq (fun c => Ok (astype_category c)) cats
              (g4 ++ [df4]) r df4 (lookup_new g4 df4)) as (v5 & -> & Hv5).
  unfold cast_category.
  destruct (for_each _ cats df4) as [df5|e]; val_step;
    [|by apply computes_Raise, prefix_insert_fresh].
  rewrite (Hv5 df5 eq_refl). clear v5 Hv5.
  set (g5 := <[r := df5]> (g4 ++ [df4])).
  assert (Hg5 : h `prefix_of` g5) by (by apply prefix_insert_fresh).
  assert (H5 : g5 !! r = Some df5) by (by eapply lookup_stored, lookup_new).
  rewrite stateT_bind_eq, (columns_obj_eq _ _ _ H5).
  rewrite stateT_bind_eq. unfold lift at 1.
  destruct (index_drop _ (column_names df5)) as [cols|e]; val_step;
    [|by apply computes_Raise].
  rewrite stateT_bind_eq.
  destruct (for_m_cast_eq astype_float32 cols g5 r df5 H5) as (v6 & -> & Hv6).
  unfold cast_float32.
  destruct (for_each _ cols df5) as [df6|e];
    [|by apply computes_Raise, prefix_insert_fresh].
  rewrite (Hv6 df6 eq_refl).
  apply computes_Ok; [by apply prefix_insert_fresh | by eapply lookup_stored].
Qed.

Lemma nwtco_read_df_obj `{PyFloat} processed (h : heap) l raw :
  h !! l = Some raw ->
  computes h (_Nwtco.read_df processed raw) (_Nwtco.read_df_obj processed l h).
Proof.
  intros Hl. unfold _Nwtco.read_df, _Nwtco.read_df_obj.
  destruct processed; [|by apply computes_Ok].
  rewrite stateT_bind_eq, stateT_bind_eq, (getitem_obj_eq _ _ _ _ Hl).
  destruct (getitem raw "instit") as [c1|e]; val_step; [|by apply computes_Raise].
  unfold lift at 1.
  destruct (sub_scalar c1 1) as [instit_2|e]; val_step; [|by apply computes_Raise].
  rewrite stateT_bind_eq, stateT_bind_eq, (getitem_obj_eq _ _ _ _ Hl).
  destruct (getitem raw "histol") as [c2|e]; val_step; [|by apply computes_Raise].
  unfold lift at 1.
  destruct (sub_scalar c2 1) as [histol_2|e]; val_step; [|by apply computes_Raise].
  rewrite stateT_bind_eq, stateT_bind_eq, (getitem_obj_eq _ _ _ _ Hl).
  destruct (getitem raw "study") as [c3|e]; val_step; [|by apply computes_Raise].
  unfold lift at 1.
  destruct (sub_scalar c3 3) as [study_4|e]; val_step; [|by apply computes_Raise].
  rewrite stateT_bind_eq, stateT_bind_eq, (getitem_obj_eq _ _ _ _ Hl).
  destruct (getitem raw "stage") as [c4|e]; val_step; [|by apply computes_Raise].
  unfold mret at 1, stateT_ret at 1. cbv beta iota.
  rewrite stateT_bind_eq.
  edestruct (assign_obj_eq
    [("instit_2", fun _ : nat => mret instit_2 : Py Series);
     ("histol_2", fun _ : nat => mret histol_2 : Py Series);
     ("study_4", fun _ : nat => mret study_4 : Py Series);
     ("stage", fun _ : nat => mret (astype_category c4) : Py Series)]
    [("instit_2", fun _ : DataFrame => Ok instit_2);
     ("histol_2", fun _ : DataFrame => Ok histol_2);
     ("study_4", fun _ : DataFrame => Ok study_4);
     ("stage", fun _ : DataFrame => Ok (astype_category c4))]
    h l raw) as (v1 & -> & Hv1); [| apply Hl |].
  { repeat constructor. }
  destruct (assign _ raw) as [df1|e]; val_step;
    [|by apply computes_Raise, prefix_app_r].
  rewrite (Hv1 df1 eq_refl). clear v1 Hv1.
  rewrite stateT_bind_eq, (method_eq _ _ _ _ (lookup_new h df1)).
  destruct (drop _ df1) as [df2|e]; val_step;
    [|by apply computes_Raise, prefix_app_r].
  set (g2 := h ++ [df1]). set (r := length g2).
  assert (Hr : (length h <= r)%nat).
  { unfold r, g2. rewrite !length_app. lia. }
  assert (Hg2 : h `prefix_of` g2 ++ [df2]) by (by do 2 apply prefix_app_r).
  assert (H2 : (g2 ++ [df2]) !! r = Some df2) by apply lookup_new.
  rewrite stateT_bind_eq, (columns_obj_eq _ _ _ H2).
  rewrite stateT_bind_eq. unfold lift at 1.
  destruct (index_drop _ (column_names df2)) as [cols|e]; val_step;
    [|by apply computes_Raise].
  rewrite stateT_bind_eq.
  destruct (for_m_cast_eq astype_float32 cols (g2 ++ [df2]) r df2 H2)
    as (v3 & -> & Hv3).
  unfold cast_float32.
  destruct (for_each _ cols df2) as [df3|e]; val_step;
    [|by apply computes_Raise, prefix_insert_fresh].
  rewrite (Hv3 df3 eq_refl).
  rewrite (method_eq _ _ _ df3) by (by eapply lookup_stored).
  apply computes_Ok; [|apply lookup_new].
  by apply prefix_app_r, prefix_insert_fresh.
Qed.

Lemma drop_read_df_obj labels (h : heap) l raw :
  h !! l = Some raw ->
  computes h (drop labels raw) (method (drop labels) l h).
Proof.
  intros Hl. rewrite (method_eq _ _ _ _ Hl).
  destruct (drop labels raw) as [out|e]; [|by apply computes_Raise].
  apply computes_Ok; [by apply prefix_app_r | apply lookup_new].
Qed.

(** The body on references computes the body on values. *)
Lemma read_df_obj_computes `{PyFloat} d processed (h : heap) l raw :
  h !! l = Some raw ->
  computes h (read_df d processed raw) (read_df_obj d processed l h).
Proof.
  intros Hl. destruct d; simpl.
  - by apply flchain_read_df_obj.
  - by apply nwtco_read_df_obj.
  - unfold _Gbsg.read_df, _Gbsg.read_df_obj.
    destruct processed; [by apply drop_read_df_obj | by apply computes_Ok].
  - unfold _Rotterdam.read_df, _Rotterdam.read_df_obj.
    destruct processed; [by apply drop_read_df_obj | by apply computes_Ok].
Qed.

(** C7.  The processed transform is deterministic.  Two calls on the same
    raw frame, the second on the heap the first left, end alike: both
    return a table, and the two tables are equal (and are the table the
    body computes on values), or both raise the same exception.  The raw
    frame is not changed by either call. *)
Theorem read_df_deterministic `{PyFloat} d (h : heap) l raw :
  h !! l = Some raw ->
  let run1 := read_df_obj d true l h in
  let run2 := read_df_obj d true l run1.2 in
  run2.2 !! l = Some raw /\
  match run1.1, run2.1 with
  | Ok l1, Ok l2 =>
      exists out, read_df d true raw = Ok out /\
                  run2.2 !! l1 = Some out /\ run2.2 !! l2 = Some out
  | Raise e1, Raise e2 => e1 = e2 /\ read_df d true raw = Raise e1
  | _, _ => False
  end.
Proof.
  intros Hl run1 run2.
  destruct (read_df_obj_computes d true h l raw Hl) as [Hpre1 Hres1].
  fold run1 in Hpre1, Hres1.
  assert (Hl1 : run1.2 !! l = Some raw) by (by eapply prefix_lookup_Some).
  destruct (read_df_obj_computes d true run1.2 l raw Hl1) as [Hpre2 Hres2].
  fold run2 in Hpre2, Hres2.
  split; [by eapply prefix_lookup_Some|].
  destruct (read_df d true raw) as [out|e], (run1.1) as [l1|e1], (run2.1) as [l2|e2];
    try done.
  - exists out. split; [done|]. split; [by eapply prefix_lookup_Some | done].
  - by subst.
Qed.


Lemma read_df_deterministic_witness :
  exists l1 l2 out,
    (@read_df_obj no_literal Flchain true 0%nat [flchain_sample]).1 = Ok l1 /\
    l2 <> l1 /\
    (@read_df_obj no_literal Flchain true 0%nat
       (@read_df_obj no_literal Flchain true 0%nat [flchain_sample]).2).2 !! l1
    = Some out /\
    (@read_df_obj no_literal Flchain true 0%nat
       (@read_df_obj no_literal Flchain true 0%nat [flchain_sample]).2).2 !! l2
    = Some out.
Proof.
  pose proof (read_df_deterministic (H := no_literal) Flchain
                [flchain_sample] 0%nat flchain_sample eq_refl) as [_ Hres].
  vm_compute in Hres. destruct Hres as (out & _ & H1 & H2).
  exists 4%nat, 8%nat, out. split; [vm_compute; reflexivity|].
  split; [lia|]. split; vm_compute; assumption.
Defined.

(** * Further properties of the loaders *)

(** ** The transforms keep a table rectangular *)

Lemma length_select {A B : Type} (mask : list cell) (l1 : list A) (l2 : list B) :
  length l1 = length l2 -> length (select mask l1) = length (select mask l2).
Proof.
  revert l1 l2. induction mask as [|m mask IH]; intros [|x l1] [|y l2] Hlen;
    simpl in *; try done.
  destruct (decide (m = CBool true)); simpl; auto.
Qed.

Lemma getitem_rectangular df name s :
  rectangular df -> getitem df name = Ok s ->
  length (s_values s) = length (index df).
Proof.
  intros Hrect Hs%getitem_Ok%lookup_col_elem_of.
  by apply (proj1 (Forall_forall _ _) Hrect (name, s)).
Qed.

Lemma rectangular_setitem df name s :
  rectangular df -> length (s_values s) = length (index df) ->
  rectangular (setitem df name s).
Proof.
  intros Hrect Hlen. unfold rectangular, setitem. cbn [index columns].
  destruct (decide (name ∈ column_names df)).
  - apply Forall_fmap. eapply Forall_impl; [apply Hrect|].
    intros [n c] Hc. simpl in *. by destruct (decide (n = name)).
  - apply Forall_app. split; [done|]. by constructor.
Qed.

Lemma rectangular_drop labels df out :
  rectangular df -> drop labels df = Ok out -> rectangular out.
Proof.
  intros Hrect [-> _]%drop_Ok. unfold rectangular. cbn [index columns].
  apply Forall_forall. intros c [_ Hc]%list_elem_of_filter.
  by apply (proj1 (Forall_forall _ _) Hrect).
Qed.

Lemma rectangular_loc_mask df mask :
  rectangular df -> rectangular (reset_index (loc_mask df mask)).
Proof.
  intros Hrect. unfold rectangular, reset_index, loc_mask, nrows, range_index.
  cbn [index columns]. rewrite length_fmap, length_seq.
  apply Forall_fmap. eapply Forall_impl; [apply Hrect|].
  intros [n c] Hc. simpl in *. by apply length_select.
Qed.

Lemma for_each_invariant {A S : Type} (P : S -> Prop)
    (body : S -> A -> result S) xs s s' :
  (forall s x s', P s -> body s x = Ok s' -> P s') ->
  P s -> for_each body xs s = Ok s' -> P s'.
Proof.
  intros Hbody. revert s. induction xs as [|x xs IH]; intros s Hs Hrun; simpl in Hrun.
  - by injection Hrun as <-.
  - inv_bind Hrun as s1 Hs1. eauto.
Qed.

Lemma rectangular_cast_column f df col out :
  (forall s s', f s = Ok s' -> length (s_values s') = length (s_values s)) ->
  rectangular df -> cast_column f df col = Ok out -> rectangular out.
Proof.
  intros Hf Hrect Hrun. unfold cast_column in Hrun.
  inv_bind Hrun as c Hc. inv_bind Hrun as c' Hc'. injection Hrun as <-.
  apply rectangular_setitem; [done|].
  rewrite (Hf _ _ Hc'). by eapply getitem_rectangular.
Qed.

Lemma length_astype_float32 `{PyFloat} s s' :
  astype_float32 s = Ok s' -> length (s_values s') = length (s_values s).
Proof.
  intros [_ Hvs%mapM_Ok]%astype_float32_Ok. symmetry. by eapply Forall2_length.
Qed.

Lemma length_sub_scalar s k s' :
  sub_scalar s k = Ok s' -> length (s_values s') = length (s_values s).
Proof.
  intros Hvs%sub_scalar_Ok%mapM_Ok. symmetry. by eapply Forall2_length.
Qed.

Lemma rectangular_label_cols_at_end d e df :
  rectangular df -> rectangular (_label_cols_at_end d e df).
Proof.
  intros Hrect. unfold rectangular, _label_cols_at_end. cbn [index columns].
  rewrite !Forall_app. repeat split;
    apply Forall_forall; intros c [_ Hc]%list_elem_of_filter;
    by apply (proj1 (Forall_forall _ _) Hrect).
Qed.

(** X1.  Every processed transform keeps a rectangular table rectangular:
    in the table it returns each column has as many values as the index
    has entries. *)
Theorem processed_rectangular `{PyFloat} d raw out :
  rectangular raw -> read_df d true raw = Ok out -> rectangular out.
Proof.
  intros Hrect H0. destruct d; simpl in H0.
  - unfold _Flchain.read_df in H0.
    inv_bind H0 as df1 Hdf1. apply (rectangular_drop _ _ _ Hrect) in Hdf1.
    inv_bind H0 as mask Hmask.
    pose proof (rectangular_loc_mask df1 mask Hdf1) as Hdf2.
    set (df2 := reset_index _) in *. clearbody df2.
    inv_bind H0 as df3 Hdf3. unfold assign in Hdf3. simpl in Hdf3.
    inv_bind Hdf3 as df3' Hdf3'. injection Hdf3 as ->.
    inv_bind Hdf3' as sex Hsex. inv_bind Hsex as sx Hsx.
    injection Hsex as <-. injection Hdf3' as <-.
    assert (Hr3 : rectangular (setitem df2 "sex" (eq_str sx "M"))).
    { apply rectangular_setitem; [done|]. unfold eq_str. cbn [s_values].
      rewrite length_fmap. by eapply getitem_rectangular. }
    inv_bind H0 as df4 Hdf4.
    change (for_each cast_category _Flchain.categorical
              (setitem df2 "sex" (eq_str sx "M")) = Ok df4) in Hdf4.
    eapply (for_each_invariant rectangular) in Hdf4; [| |exact Hr3].
    2:{ intros s x s' Hs. by apply rectangular_cast_column; [intros ? ? [= <-]|]. }
    inv_bind H0 as cols Hcols.
    eapply (for_each_invariant rectangular); [|exact Hdf4|exact H0].
    intros s x s' Hs. apply rectangular_cast_column; [|done].
    apply length_astype_float32.
  - unfold _Nwtco.read_df in H0.
    inv_bind H0 as instit_2 Hi. inv_bind Hi as instit Hinstit.
    inv_bind H0 as histol_2 Hh. inv_bind Hh as histol Hhistol.
    inv_bind H0 as study_4 Hs. inv_bind Hs as study Hstudy.
    inv_bind H0 as stage' Hst. inv_bind Hst as stage Hstage. injection Hst as <-.
    apply length_sub_scalar in Hi, Hh, Hs.
    apply (getitem_rectangular _ _ _ Hrect) in Hinstit, Hhistol, Hstudy, Hstage.
    try unfold assign in H0. cbn [for_each fst snd] in H0.
    rewrite ?bind_Ok_eq in H0.
    inv_bind H0 as df2 Hdf2. apply rectangular_drop in Hdf2.
    2:{ repeat apply rectangular_setitem; try done; cbn [index setitem]; congruence. }
    inv_bind H0 as cols Hcols. inv_bind H0 as df3 Hdf3. injection H0 as <-.
    apply rectangular_label_cols_at_end.
    eapply (for_each_invariant rectangular); [|exact Hdf2|exact Hdf3].
    intros s x s' Hs0. apply rectangular_cast_column; [|done].
    apply length_astype_float32.
  - by eapply rectangular_drop.
  - by eapply rectangular_drop.
Qed.

Lemma processed_rectangular_witness :
  rectangular flchain_sample_processed /\ rectangular nwtco_sample_processed.
Proof.
  split.
  - apply (processed_rectangular (H := no_literal) Flchain flchain_sample).
    + repeat constructor.
    + vm_compute. reflexivity.
  - apply (processed_rectangular (H := no_literal) Nwtco nwtco_sample).
    + repeat constructor.
    + vm_compute. reflexivity.
Defined.

(** ** The shape of the processed flchain table *)

Lemma flchain_index `{PyFloat} raw out :
  _Flchain.read_df true raw = Ok out ->
  exists creatinine,
    lookup_col "creatinine" (columns raw) = Some creatinine /\
    index out = range_index (length (select (notna_mask creatinine) (index raw))).
Proof.
  intros H0. unfold _Flchain.read_df in H0.
  inv_bind H0 as df1 Hdf1. apply drop_Ok in Hdf1 as [-> _].
  inv_bind H0 as mask Hmask. inv_bind Hmask as creatinine Hcr. injection Hmask as <-.
  apply getitem_Ok in Hcr. cbn [columns] in Hcr. rewrite lookup_col_filter in Hcr.
  destruct (decide ("creatinine" ∈ ["chapter"; "Unnamed: 0"])); [done|].
  exists creatinine. split; [done|].
  inv_bind H0 as df3 Hdf3. unfold assign in Hdf3. simpl in Hdf3.
  inv_bind Hdf3 as df3' Hdf3'. injection Hdf3 as ->.
  inv_bind Hdf3' as sex Hsex. inv_bind Hsex as sx Hsx.
  injection Hsex as <-. injection Hdf3' as <-.
  inv_bind H0 as df4 Hdf4.
  change (for_each cast_category _Flchain.categorical
            (setitem (reset_index
                        (loc_mask {| index := index raw;
                                     columns := filter (fun c => c.1 ∉ ["chapter"; "Unnamed: 0"])
                                                       (columns raw) |}
                                  (eq_bool (isna creatinine) false)))
                     "sex" (eq_str sx "M")) = Ok df4) in Hdf4.
  apply for_each_cast_column_names in Hdf4 as [Hi4 _].
  inv_bind H0 as cols Hcols. apply for_each_cast_column_names in H0 as [-> _].
  by rewrite Hi4.
Qed.

(** X2.  The processed flchain table has the default index 0 .. n-1, n
    being the number of raw rows whose creatinine is not missing, and its
    columns are the raw columns other than 'chapter' and 'Unnamed: 0', in
    the raw order: no column is added, renamed or moved. *)
Theorem flchain_processed_shape `{PyFloat} raw out :
  rectangular raw ->
  _Flchain.read_df true raw = Ok out ->
  exists creatinine,
    lookup_col "creatinine" (columns raw) = Some creatinine /\
    index out
    = range_index (length (filter (fun v => cell_isna v = false)
                                  (s_values creatinine))) /\
    column_names out
    = filter (fun n => n ∉ ["chapter"; "Unnamed: 0"]) (column_names raw).
Proof.
  intros Hrect Hrun.
  destruct (flchain_index raw out Hrun) as (creatinine & Hcr & Hidx).
  exists creatinine. split; [done|]. split; [|by apply flchain_column_names].
  rewrite Hidx, <- select_notna. f_equal. apply length_select.
  symmetry. eapply getitem_rectangular; [done | by apply getitem_Ok].
Qed.

Lemma flchain_processed_shape_witness :
  index flchain_sample_processed = range_index 2 /\
  column_names flchain_sample_processed
  = ["age"; "sex"; "sample.yr"; "kappa"; "lambda"; "flc.grp"; "creatinine";
     "mgus"; "futime"; "death"].
Proof.
  destruct (flchain_processed_shape (H := no_literal)
              flchain_sample flchain_sample_processed) as (c & Hc & Hidx & Hnames).
  - repeat constructor.
  - vm_compute. reflexivity.
  - injection Hc as <-. split; [exact Hidx | exact Hnames].
Defined.

(** ** The values of the processed flchain table *)

(** X3.  Apart from the row filter, processing flchain changes no datum:
    on the kept rows a categorical column ('sample.yr', 'flc.grp') holds
    the raw values, and every other column but 'sex' holds the float32
    cast of the raw values, which for an integer of absolute value up to
    2^24 (a follow-up time, an event flag, an age) is that integer. *)
Theorem flchain_processed_values `{PyFloat} raw out :
  NoDup (column_names raw) ->
  _Flchain.read_df true raw = Ok out ->
  exists creatinine,
    lookup_col "creatinine" (columns raw) = Some creatinine /\
    forall name s,
      lookup_col name (columns raw) = Some s ->
      name ∉ ["chapter"; "Unnamed: 0"] ->
      exists s',
        lookup_col name (columns out) = Some s' /\
        if decide (name ∈ ["sample.yr"; "flc.grp"])
        then s' = mkSeries category (select (notna_mask creatinine) (s_values s))
        else name <> "sex" ->
             s_dtype s' = float32 /\
             Forall2 (fun v v' =>
                        cell_to_float32 v = Ok v' /\
                        forall z, v = CInt z -> Z.abs z <= 2 ^ 24 ->
                                  exists f, v' = CFloat f /\ float_to_Z f = Some z)
                     (select (notna_mask creatinine) (s_values s)) (s_values s').
Proof.
  intros Hnd Hrun.
  destruct (flchain_read_df_spec raw out Hnd Hrun)
    as (creatinine & Hcr & _ & Hnames & _ & Hcols).
  exists creatinine. split; [done|]. intros name s Hs Hkeep.
  assert (Hin : is_Some (lookup_col name (columns out))).
  { apply lookup_col_is_Some. fold (column_names out). rewrite Hnames.
    apply list_elem_of_filter. split; [done|].
    apply lookup_col_is_Some. by eexists. }
  destruct Hin as [s' Hs']. exists s'. split; [done|].
  destruct (Hcols _ _ Hs') as (s0 & Hs0 & Hcol). rewrite Hs in Hs0.
  injection Hs0 as <-. unfold flchain_column in Hcol.
  change ["sample.yr"; "flc.grp"] with _Flchain.categorical.
  destruct (decide (name ∈ _Flchain.categorical)) as [Hcat|Hcat].
  - rewrite decide_False in Hcol; [done|]. intros ->. revert Hcat. by_decide.
  - intros Hsex. rewrite decide_False in Hcol by done.
    destruct Hcol as [Hdt Hvs]. split; [done|].
    apply mapM_Ok in Hvs. eapply Forall2_impl; [apply Hvs|].
    intros v v' Hv. split; [done|]. intros z -> Hz.
    simpl in Hv. injection Hv as <-. eexists. split; [done|].
    by apply f32_of_Z_exact.
Qed.

Lemma flchain_processed_values_witness :
  exists futime,
    lookup_col "futime" (columns flchain_sample_processed) = Some futime /\
    float_to_Z <$> (s_values futime ≫= fun v => match v with
                                                | CFloat f => [f]
                                                | _ => []
                                                end)
    = [Some 85; Some 69].
Proof.
  destruct (flchain_processed_values (H := no_literal)
              flchain_sample flchain_sample_processed) as (c & Hc & Hcols).
  - by_decide.
  - vm_compute. reflexivity.
  - destruct (Hcols "futime" (mkSeries int64 [CInt 85; CInt 1281; CInt 69]))
      as (s' & Hs' & _); [reflexivity | by_decide |].
    exists s'. split; [done|]. vm_compute in Hs'. by injection Hs' as <-.
Defined.

(** ** The columns a processed read needs *)

Lemma for_each_cast_column_present (f : Series -> result Series) cols df out :
  for_each (cast_column f) cols df = Ok out -> cols ⊆ column_names df.
Proof.
  revert df. induction cols as [|col cols IH]; intros df H; simpl in H.
  - intros x Hx. by apply elem_of_nil in Hx.
  - inv_bind H as df1 Hdf1. pose proof Hdf1 as Hstep. unfold cast_column in Hdf1.
    inv_bind Hdf1 as c Hc. inv_bind Hdf1 as c' Hc'. injection Hdf1 as <-.
    apply getitem_Ok in Hc.
    assert (Hcol : col ∈ column_names df) by (apply lookup_col_is_Some; by eexists).
    apply IH in H. rewrite names_setitem, decide_True in H by done.
    intros x [->|Hx]%elem_of_cons; [done | by apply H].
Qed.

(** A processed read that returns has found every required column. *)
Lemma read_df_requires `{PyFloat} d raw out :
  read_df d true raw = Ok out -> required d ⊆ column_names raw.
Proof.
  intros H0. destruct d; simpl in H0.
  - unfold _Flchain.read_df in H0.
    inv_bind H0 as df1 Hdf1. apply drop_Ok in Hdf1 as [-> Hsub].
    inv_bind H0 as mask Hmask. inv_bind Hmask as creatinine Hcr.
    apply getitem_Ok in Hcr. cbn [columns] in Hcr. rewrite lookup_col_filter in Hcr.
    destruct (decide ("creatinine" ∈ ["chapter"; "Unnamed: 0"])); [done|].
    inv_bind H0 as df3 Hdf3. unfold assign in Hdf3. simpl in Hdf3.
    inv_bind Hdf3 as df3' Hdf3'. injection Hdf3 as ->.
    inv_bind Hdf3' as sex Hsex. inv_bind Hsex as sx Hsx.
    injection Hsex as <-. injection Hdf3' as <-. apply getitem_Ok in Hsx.
    cbn [reset_index columns] in Hsx. rewrite lookup_loc_mask in Hsx.
    cbn [columns] in Hsx. rewrite lookup_col_filter in Hsx.
    destruct (decide ("sex" ∈ ["chapter"; "Unnamed: 0"])); [done|].
    inv_bind H0 as df4 Hdf4.
    match type of Hdf4 with
    | _ ≫= _ = _ =>
        change (for_each cast_category _Flchain.categorical
                  (setitem (reset_index
                              (loc_mask {| index := index raw;
                                           columns := filter (fun c => c.1 ∉ ["chapter"; "Unnamed: 0"])
                                                             (columns raw) |} mask))
                           "sex" (eq_str sx "M")) = Ok df4) in Hdf4
    | _ => idtac
    end.
    apply for_each_cast_column_present in Hdf4.
    rewrite names_setitem in Hdf4.
    assert (Hnames : forall lbl,
      lbl ∈ column_names (reset_index
             (loc_mask {| index := index raw;
                          columns := filter (fun c => c.1 ∉ ["chapter"; "Unnamed: 0"])
                                            (columns raw) |} mask)) ->
      lbl ∈ column_names raw).
    { intros lbl. unfold reset_index, column_names at 1. cbn [columns].
      fold (column_names (loc_mask {| index := index raw;
              columns := filter (fun c => c.1 ∉ ["chapter"; "Unnamed: 0"])
                                (columns raw) |} mask)).
      rewrite names_loc_mask. unfold column_names at 1. cbn [columns].
      rewrite names_filter. by intros [_ ?]%list_elem_of_filter. }
    rewrite decide_True in Hdf4.
    2:{ apply lookup_col_is_Some. cbn [reset_index columns].
        rewrite lookup_loc_mask. cbn [columns]. rewrite lookup_col_filter.
        rewrite decide_False by done.
        destruct (lookup_col "sex" (columns raw)); [by eexists | done]. }
    intros lbl Hn. unfold required in Hn.
    rewrite !elem_of_cons, elem_of_nil in Hn.
    destruct Hn as [->|[->|[->|[->|[->|[->|[]]]]]]].
    + apply Hsub. by_decide.
    + apply Hsub. by_decide.
    + apply lookup_col_is_Some.
      destruct (lookup_col "creatinine" (columns raw)); [by eexists | done].
    + apply lookup_col_is_Some.
      destruct (lookup_col "sex" (columns raw)); [by eexists | done].
    + apply Hnames, Hdf4. by_decide.
    + apply Hnames, Hdf4. by_decide.
  - unfold _Nwtco.read_df in H0.
    inv_bind H0 as instit_2 Hi. inv_bind Hi as instit Hinstit.
    inv_bind H0 as histol_2 Hh. inv_bind Hh as histol Hhistol.
    inv_bind H0 as study_4 Hs. inv_bind Hs as study Hstudy.
    inv_bind H0 as stage' Hst. inv_bind Hst as stage Hstage. injection Hst as <-.
    apply getitem_Ok in Hinstit, Hhistol, Hstudy, Hstage.
    try unfold assign in H0. cbn [for_each fst snd] in H0.
    rewrite ?bind_Ok_eq in H0.
    inv_bind H0 as df2 Hdf2. apply drop_Ok in Hdf2 as [_ Hsub].
    assert (Hraw : forall lbl,
      lbl ∈ ["Unnamed: 0"; "seqno"] -> lbl ∈ column_names raw).
    { intros lbl Hn.
      assert (Hd : lbl ∈ ["Unnamed: 0"; "seqno"; "instit"; "histol"; "study"]).
      { revert Hn. rewrite !elem_of_cons, !elem_of_nil. tauto. }
      apply Hsub in Hd. rewrite !elem_of_names_setitem in Hd.
      destruct Hd as [->|[->|[->|[->|Hd]]]]; try done; revert Hn; by_decide. }
    intros lbl Hn. unfold required in Hn.
    rewrite !elem_of_cons, elem_of_nil in Hn.
    destruct Hn as [->|[->|[->|[->|[->|[->|[]]]]]]];
      try (apply lookup_col_is_Some; by eexists); apply Hraw; by_decide.
  - by apply drop_Ok in H0 as [_ Hsub].
  - by apply drop_Ok in H0 as [_ Hsub].
Qed.

(** X4.  A processed read succeeds only on a table that has every column
    the transform drops or reads by label: a raw table that lacks one of
    them (an index column named otherwise than 'Unnamed: 0', say) makes
    [read_df(processed=True)] raise. *)
Theorem processed_needs_columns `{PyFloat} d raw out :
  read_df d true raw = Ok out -> required d ⊆ column_names raw.
Proof. apply read_df_requires. Qed.

Lemma processed_needs_columns_witness :
  "Unnamed: 0" ∈ column_names rotterdam_sample.
Proof.
  apply (processed_needs_columns (H := no_literal) Rotterdam
           rotterdam_sample rotterdam_sample_processed).
  - vm_compute. reflexivity.
  - by_decide.
Defined.

(** ** When a processed read returns *)

Lemma drop_missing labels df :
  ~ labels ⊆ column_names df ->
  drop labels df = Raise (KeyError (filter (fun l => l ∉ column_names df) labels)).
Proof.
  intros Hsub. unfold drop.
  destruct (filter _ labels) as [|m ms] eqn:Hmiss; [|done].
  exfalso. apply Hsub. intros l Hl.
  destruct (decide (l ∈ column_names df)) as [|Hn]; [done|].
  exfalso. eapply filter_nil_not_elem_of; [apply Hmiss | apply Hn | apply Hl].
Qed.

(** X5.  flchain, gbsg and rotterdam start by dropping their listed
    columns: when the raw table lacks some of them, the processed read
    raises [KeyError] with exactly the missing labels, in the order of
    the list. *)
Theorem missing_dropped_column_KeyError `{PyFloat} d labels raw :
  (d, labels) ∈ [(Flchain, ["chapter"; "Unnamed: 0"]);
                 (Gbsg, ["Unnamed: 0"; "pid"]);
                 (Rotterdam, ["Unnamed: 0"; "pid"; "year"; "dtime"; "death"; "chemo"])] ->
  ~ labels ⊆ column_names raw ->
  read_df d true raw
  = Raise (KeyError (filter (fun l => l ∉ column_names raw) labels)).
Proof.
  rewrite !elem_of_cons, elem_of_nil.
  intros [[= -> ->]|[[= -> ->]|[[= -> ->]|[]]]] Hsub; simpl.
  - unfold _Flchain.read_df. by rewrite (drop_missing _ _ Hsub).
  - by apply drop_missing.
  - by apply drop_missing.
Qed.

Lemma missing_dropped_column_KeyError_witness :
  @read_df no_literal Flchain true flchain_sample_processed
  = Raise (KeyError ["chapter"; "Unnamed: 0"]).
Proof.
  refine (missing_dropped_column_KeyError (H := no_literal) Flchain
            ["chapter"; "Unnamed: 0"] flchain_sample_processed _ _).
  - by_decide.
  - intros Hsub. specialize (Hsub "chapter"). revert Hsub. by_decide.
Defined.

(** X6.  The processed read of gbsg and of rotterdam returns exactly when
    the raw table has every listed column. *)
Theorem gbsg_rotterdam_returns_iff `{PyFloat} d labels raw :
  (d, labels) ∈ [(Gbsg, ["Unnamed: 0"; "pid"]);
                 (Rotterdam, ["Unnamed: 0"; "pid"; "year"; "dtime"; "death"; "chemo"])] ->
  (exists out, read_df d true raw = Ok out) <-> labels ⊆ column_names raw.
Proof.
  rewrite !elem_of_cons, elem_of_nil.
  intros [[= -> ->]|[[= -> ->]|[]]]; simpl; (split;
    [intros [out [_ Hsub]%drop_Ok]; exact Hsub
    |intros Hsub; eexists; by apply drop_present]).
Qed.

Lemma gbsg_rotterdam_returns_iff_witness :
  exists out, @read_df no_literal Gbsg true gbsg_sample = Ok out.
Proof.
  apply (gbsg_rotterdam_returns_iff (H := no_literal) Gbsg ["Unnamed: 0"; "pid"]).
  - by_decide.
  - by_decide.
Defined.

Lemma index_drop_present labels names :
  labels ⊆ names ->
  index_drop labels names = Ok (filter (fun n => n ∉ labels) names).
Proof.
  intros Hsub. unfold index_drop.
  destruct (filter _ labels) as [|m ms] eqn:Hmiss; [done|].
  assert (Hm : m ∈ filter (fun l => l ∉ names) labels) by (rewrite Hmiss; left).
  apply list_elem_of_filter in Hm as [Hm1 Hm2]. by apply Hsub in Hm2.
Qed.

Lemma for_each_cast_column_returns (f : Series -> result Series) cols df :
  NoDup cols ->
  (forall col, col ∈ cols ->
     exists s s', lookup_col col (columns df) = Some s /\ f s = Ok s') ->
  exists out, for_each (cast_column f) cols df = Ok out.
Proof.
  intros Hnd. revert df. induction Hnd as [|col cols Hcol Hnd IH]; intros df Hall.
  - by exists df.
  - destruct (Hall col) as (s & s' & Hs & Hf); [left|].
    cbn [for_each]. apply getitem_Ok in Hs.
    assert (Hstep : cast_column f df col = Ok (setitem df col s'))
      by (unfold cast_column; by rewrite Hs, bind_Ok_eq, Hf).
    rewrite Hstep, bind_Ok_eq.
    apply IH. intros c Hc. rewrite lookup_setitem.
    rewrite decide_False by (intros ->; done). apply Hall. by right.
Qed.

Lemma mapM_castable `{PyFloat} vs :
  Forall castable vs <-> exists vs', mapM cell_to_float32 vs = Ok vs'.
Proof.
  split.
  - induction 1 as [|v vs [v' Hv] _ [vs' IH]]; [by exists []|].
    exists (v' :: vs'). simpl. rewrite Hv. simpl. by rewrite IH.
  - intros [vs' Hvs%mapM_Ok].
    induction Hvs as [|v v' vs vs' Hv _ IH]; constructor; [by exists v' | done].
Qed.

(** X7.  On a table with distinct column labels, the processed flchain
    read returns exactly when the table has the six columns the transform
    names and, in every column that is cast to float32 (all but the
    dropped, the categorical and 'sex'), each cell of a kept row is one
    that [astype('float32')] accepts.  In particular it returns on every
    all-numeric table with these columns, the empty one included, and
    raises on a kept string that is not a number. *)
Theorem flchain_returns_iff `{PyFloat} raw :
  NoDup (column_names raw) ->
  (exists out, _Flchain.read_df true raw = Ok out) <->
  (required Flchain ⊆ column_names raw /\
   forall creatinine name s,
     lookup_col "creatinine" (columns raw) = Some creatinine ->
     lookup_col name (columns raw) = Some s ->
     name ∉ ["chapter"; "Unnamed: 0"; "sex"; "sample.yr"; "flc.grp"] ->
     Forall castable (select (notna_mask creatinine) (s_values s))).
Proof.
  intros Hnd. split.
  - intros [out Hrun]. split; [by apply (read_df_requires Flchain raw out)|].
    intros creatinine name s Hcr Hs Hname.
    destruct (flchain_read_df_spec raw out Hnd Hrun)
      as (creatinine' & Hcr' & _ & Hnames & _ & Hcols).
    rewrite Hcr in Hcr'. injection Hcr' as <-.
    assert (Hin : is_Some (lookup_col name (columns out))).
    { apply lookup_col_is_Some. fold (column_names out). rewrite Hnames.
      apply list_elem_of_filter. split.
      - intros Hd. apply Hname. revert Hd. rewrite !elem_of_cons, !elem_of_nil. tauto.
      - apply lookup_col_is_Some. by eexists. }
    destruct Hin as [s' Hs']. destruct (Hcols _ _ Hs') as (s0 & Hs0 & Hcol).
    rewrite Hs in Hs0. injection Hs0 as <-. unfold flchain_column in Hcol.
    rewrite decide_False in Hcol.
    2:{ intros ->. apply Hname. by_decide. }
    rewrite decide_False in Hcol.
    2:{ intros Hd. apply Hname. revert Hd. unfold _Flchain.categorical.
        rewrite !elem_of_cons, !elem_of_nil. tauto. }
    apply mapM_castable. exists (s_values s'). by destruct Hcol.
  - intros [Hreq Hcast]. unfold _Flchain.read_df.
    assert (Hhas : forall lbl, lbl ∈ required Flchain ->
                               is_Some (lookup_col lbl (columns raw))).
    { intros lbl Hl. by apply lookup_col_is_Some, Hreq. }
    destruct (Hhas "creatinine") as [creatinine Hcr]; [by_decide|].
    destruct (Hhas "sex") as [sex Hsex]; [by_decide|].
    rewrite drop_present.
    2:{ intros lbl Hl. apply Hreq. revert Hl. unfold required.
        rewrite !elem_of_cons, !elem_of_nil. tauto. }
    rewrite bind_Ok_eq.
    rewrite (proj2 (getitem_Ok _ "creatinine" creatinine)).
    2:{ cbn [columns]. by rewrite lookup_col_filter, decide_False by by_decide. }
    rewrite !bind_Ok_eq.
    set (df2 := reset_index _).
    assert (Hcols2 : forall name,
      lookup_col name (columns df2)
      = if decide (name ∈ ["chapter"; "Unnamed: 0"]) then None
        else (fun s => mkSeries (s_dtype s)
                         (select (notna_mask creatinine) (s_values s)))
             <$> lookup_col name (columns raw)).
    { intros name. unfold df2, reset_index. cbn [columns].
      rewrite lookup_loc_mask. cbn [columns]. rewrite lookup_col_filter.
      by destruct (decide (name ∈ ["chapter"; "Unnamed: 0"])). }
    assert (Hnames2 : column_names df2
                      = filter (fun n => n ∉ ["chapter"; "Unnamed: 0"])
                               (column_names raw)).
    { unfold df2, reset_index, column_names. cbn [columns].
      rewrite <- names_filter. apply names_loc_mask. }
    clearbody df2.
    unfold assign. cbn [for_each fst snd].
    set (sx := mkSeries (s_dtype sex) (select (notna_mask creatinine) (s_values sex))).
    rewrite (proj2 (getitem_Ok df2 "sex" sx)).
    2:{ by rewrite Hcols2, decide_False, Hsex by by_decide. }
    rewrite !bind_Ok_eq.
    set (df3 := setitem df2 "sex" (eq_str sx "M")).
    assert (Hnames3 : column_names df3 = column_names df2).
    { unfold df3. rewrite names_setitem, decide_True; [done|].
      apply lookup_col_is_Some. rewrite Hcols2, decide_False, Hsex by by_decide.
      by eexists. }
    assert (Hin3 : forall lbl, lbl ∈ required Flchain ->
                   lbl ∉ ["chapter"; "Unnamed: 0"] -> lbl ∈ column_names df3).
    { intros lbl Hl Hd. rewrite Hnames3, Hnames2. apply list_elem_of_filter.
      split; [done | by apply Hreq]. }
    destruct (for_each_cast_column_returns (fun c => Ok (astype_category c))
                _Flchain.categorical df3) as [df4 Hdf4]; [by_decide | |].
    { intros col Hc.
      assert (Hs : is_Some (lookup_col col (columns df3))).
      { apply lookup_col_is_Some, Hin3.
        - revert Hc. unfold _Flchain.categorical, required.
          rewrite !elem_of_cons, !elem_of_nil. tauto.
        - intros Hd. revert Hc Hd. unfold _Flchain.categorical.
          rewrite !elem_of_cons, !elem_of_nil.
          intros [->|[->|[]]] [?|[?|[]]]; discriminate. }
      destruct Hs as [s Hs]. by exists s, (astype_category s). }
    unfold cast_category. rewrite Hdf4, bind_Ok_eq.
    pose proof Hdf4 as Hspec.
    apply for_each_cast_column in Hspec as (_ & Hnames4 & Hcols4); [|by_decide].
    rewrite index_drop_present.
    2:{ intros lbl Hl. rewrite Hnames4. apply Hin3.
        - revert Hl. unfold _Flchain.categorical, required.
          rewrite !elem_of_cons, !elem_of_nil. tauto.
        - intros Hd. revert Hl Hd. unfold _Flchain.categorical.
          rewrite !elem_of_cons, !elem_of_nil.
          intros [->|[->|[]]] [?|[?|[]]]; discriminate. }
    rewrite bind_Ok_eq. unfold cast_float32.
    apply for_each_cast_column_returns.
    { apply NoDup_filter. rewrite Hnames4, Hnames3, Hnames2. by apply NoDup_filter. }
    intros col [Hncat Hcol]%list_elem_of_filter.
    specialize (Hcols4 col). rewrite decide_False in Hcols4 by done.
    unfold df3 in Hcols4 at 1. rewrite lookup_setitem, Hcols2 in Hcols4.
    rewrite Hcols4. clear Hcols4.
    destruct (decide (col = "sex")) as [->|Hnsex].
    { eexists _, _. split; [done|]. unfold astype_float32, eq_str. cbn [s_values].
      by rewrite mapM_float32_bool. }
    rewrite Hnames4, Hnames3, Hnames2 in Hcol.
    apply list_elem_of_filter in Hcol as [Hnd' Hcol].
    rewrite decide_False by done.
    apply lookup_col_is_Some in Hcol as [s Hs]. rewrite Hs. cbn [fmap option_fmap option_map].
    assert (Hc : Forall castable (select (notna_mask creatinine) (s_values s))).
    { apply (Hcast creatinine col s Hcr Hs). intros Hd. revert Hd.
      rewrite !elem_of_cons, !elem_of_nil.
      intros [->|[->|[->|[->|[->|[]]]]]]; try done;
        try (apply Hnd'; by_decide); apply Hncat; by_decide. }
    apply mapM_castable in Hc as [vs' Hvs'].
    eexists _, _. split; [done|]. unfold astype_float32. cbn [s_values].
    by rewrite Hvs'.
Qed.

Lemma flchain_returns_iff_witness :
  exists out, @_Flchain.read_df no_literal true flchain_empty = Ok out.
Proof.
  apply (flchain_returns_iff (H := no_literal) flchain_empty).
  - by_decide.
  - split; [by_decide|].
    intros creatinine name s Hcr Hs _. injection Hcr as <-.
    apply lookup_col_elem_of in Hs. vm_compute in Hs.
    apply list_elem_of_In in Hs. simpl in Hs.
    repeat (destruct Hs as [[= <- <-]|Hs]; [constructor|]). destruct Hs.
Defined.

(** ** The column types of the processed nwtco table *)

(** X8.  In the processed nwtco table the column 'stage' is categorical
    and holds the raw stage values unchanged, and every other column is
    float32-typed. *)
Theorem nwtco_processed_dtypes `{PyFloat} raw out :
  NoDup (column_names raw) ->
  _Nwtco.read_df true raw = Ok out ->
  exists stage,
    lookup_col "stage" (columns raw) = Some stage /\
    lookup_col "stage" (columns out) = Some (mkSeries category (s_values stage)) /\
    forall name s, lookup_col name (columns out) = Some s -> name <> "stage" ->
                   s_dtype s = float32.
Proof.
  intros Hnd Hrun.
  destruct (nwtco_read_df_spec raw out Hnd Hrun)
    as (instit & histol & study & stage & instit_2 & histol_2 & study_4
        & _ & _ & _ & Hst & _ & _ & _ & _ & Hnames & Hcols).
  exists stage. split; [done|]. split.
  - assert (Hin : is_Some (lookup_col "stage" (columns out))).
    { apply lookup_col_is_Some, Hnames. split; [by_decide|]. right.
      apply lookup_col_is_Some. by eexists. }
    destruct Hin as [s' Hs']. specialize (Hcols _ _ Hs').
    rewrite decide_True in Hcols by done. by rewrite Hs', Hcols.
  - intros name s Hs Hne. specialize (Hcols _ _ Hs).
    rewrite decide_False in Hcols by done.
    destruct Hcols as (s0 & _ & Hcast). by apply astype_float32_Ok in Hcast as [? _].
Qed.

Lemma nwtco_processed_dtypes_witness :
  lookup_col "stage" (columns nwtco_sample_processed)
  = Some (mkSeries category [CInt 1; CInt 4]) /\
  s_dtype <$> lookup_col "edrel" (columns nwtco_sample_processed) = Some float32.
Proof.
  destruct (nwtco_processed_dtypes (H := no_literal)
              nwtco_sample nwtco_sample_processed) as (st & Hst & Hout & Hdt).
  - by_decide.
  - vm_compute. reflexivity.
  - injection Hst as <-. split; [exact Hout|].
    destruct (lookup_col "edrel" (columns nwtco_sample_processed))
      as [s|] eqn:Hs; [|by vm_compute in Hs].
    simpl. f_equal. by apply (Hdt "edrel").
Defined.

(** ** In-place assignment does not reach the caller's frames *)

(** X9.  [read_df] assigns columns in place, but only in frames it has
    built: after a call, in either mode, every frame that was on the heap
    is there unchanged (the raw table among them), and the call returns a
    reference to the table, or raises the exception, that the body
    computes on values. *)
Theorem read_df_obj_refines `{PyFloat} d processed (h : heap) l raw :
  h !! l = Some raw ->
  h `prefix_of` (read_df_obj d processed l h).2 /\
  match read_df d processed raw, (read_df_obj d processed l h).1 with
  | Ok out, Ok l' => (read_df_obj d processed l h).2 !! l' = Some out
  | Raise e, Raise e' => e = e'
  | _, _ => False
  end.
Proof. intros Hl. by apply (read_df_obj_computes d processed h l raw). Qed.

Lemma read_df_obj_refines_witness :
  [gbsg_sample; nwtco_sample]
    `prefix_of` (@read_df_obj no_literal Nwtco true 1%nat [gbsg_sample; nwtco_sample]).2.
Proof.
  exact (proj1 (read_df_obj_refines (H := no_literal) Nwtco true
                  [gbsg_sample; nwtco_sample] 1%nat nwtco_sample eq_refl)).
Defined.

(** ** The registry lookup when the item is listed *)

Lemma cell_eq_str_true v c : cell_eq_str v c = true <-> c = CStr v.
Proof.
  destruct c as [| | |s|]; simpl; try (split; [done | discriminate]).
  rewrite bool_decide_eq_true. split; [by intros -> | by intros [= ->]].
Qed.

Lemma select_no_hit {A : Type} (idx : list cell) (xs : list A) L :
  L ∉ idx ->
  select ((fun l => CBool (bool_decide (l = L))) <$> idx) xs = [].
Proof.
  revert xs. induction idx as [|l idx IH]; intros xs Hin; [done|].
  apply not_elem_of_cons in Hin as [Hne Hin]. destruct xs as [|x xs]; [done|].
  simpl. rewrite bool_decide_eq_false_2 by done.
  rewrite decide_False by discriminate. by apply IH.
Qed.

Lemma select_cons_true {A : Type} (mask : list cell) (x : A) (l : list A) :
  select (CBool true :: mask) (x :: l) = x :: select mask l.
Proof. reflexivity. Qed.

Lemma select_cons_false {A : Type} (mask : list cell) (x : A) (l : list A) :
  select (CBool false :: mask) (x :: l) = select mask l.
Proof. reflexivity. Qed.

(** The one row of the registry that lists the item under the package is
    the one row the two selections keep. *)
Lemma select_unique {A : Type} (ps items : list cell) (xs : list A) package L i x :
  length items = length xs ->
  ps !! i = Some (CStr package) -> items !! i = Some L -> xs !! i = Some x ->
  (forall j : nat, ps !! j = Some (CStr package) -> items !! j = Some L -> j = i) ->
  let mask := (fun c => CBool (cell_eq_str package c)) <$> ps in
  let hit := (fun l => CBool (bool_decide (l = L))) <$> select mask items in
  select hit (select mask items) = [L] /\ select hit (select mask xs) = [x].
Proof.
  revert items xs i.
  induction ps as [|p ps IH]; intros items xs i Hlen Hp Hi Hx Huniq; [done|].
  destruct items as [|it items]; [done|]. destruct xs as [|x0 xs]; [done|].
  injection Hlen as Hlen. cbv zeta. rewrite fmap_cons.
  destruct (cell_eq_str package p) eqn:Ep.
  - apply cell_eq_str_true in Ep as ->. rewrite !select_cons_true, fmap_cons.
    destruct (decide (it = L)) as [->|Hne].
    + assert (i = 0)%nat as -> by (symmetry; by apply (Huniq 0%nat)).
      injection Hx as ->. rewrite bool_decide_eq_true_2 by done.
      rewrite !select_cons_true.
      assert (Hno : L ∉ select ((fun c => CBool (cell_eq_str package c)) <$> ps) items).
      { intros (j & Hj & Hit)%elem_of_select.
        rewrite list_lookup_fmap in Hj.
        destruct (ps !! j) as [c|] eqn:Hc; [|done]. simpl in Hj.
        injection Hj as Hj. apply cell_eq_str_true in Hj as ->.
        by specialize (Huniq (S j) Hc Hit). }
      by rewrite !(select_no_hit _ _ _ Hno).
    + destruct i as [|i]; [simpl in Hi; congruence|].
      rewrite bool_decide_eq_false_2 by done. rewrite !select_cons_false.
      apply (IH items xs i); try done.
      intros j Hj1 Hj2. specialize (Huniq (S j) Hj1 Hj2). lia.
  - rewrite !select_cons_false.
    destruct i as [|i].
    { simpl in Hp. injection Hp as ->. simpl in Ep. by rewrite bool_decide_eq_true_2 in Ep. }
    apply (IH items xs i); try done.
    intros j Hj1 Hj2. specialize (Huniq (S j) Hj1 Hj2). lia.
Qed.

Lemma lookup_col_filter_ne (key : string) name cols :
  lookup_col name (filter (fun c => c.1 ≠ key) cols)
  = if decide (name = key) then None else lookup_col name cols.
Proof.
  induction cols as [|[n s] cols IH]; simpl.
  - by destruct (decide (name = key)).
  - rewrite filter_cons. simpl. destruct (decide (n ≠ key)) as [Hn|Hn]; simpl.
    + destruct (decide (n = name)) as [->|Hne]; [by rewrite decide_False | done].
    + rewrite IH. destruct (decide (name = key)) as [->|Hp]; [done|].
      rewrite decide_False; [done|]. intros ->. by apply Hn.
Qed.

(** An entry of the row that [loc] builds from the selected columns. *)
Lemma row_entry (g : Series -> cell) name cols s :
  lookup_col name cols = Some s ->
  exists j : nat,
    list_find (fun kv : string * cell => kv.1 = name)
              ((fun c : string * Series => (c.1, g c.2)) <$> cols)
    = Some (j, (name, g s)).
Proof.
  induction cols as [|[n c] cols IH]; simpl; [done|].
  destruct (decide (n = name)) as [->|Hne].
  - intros [= ->]. by exists 0%nat.
  - intros Hs. destruct (IH Hs) as [j Hj]. exists (S j).
    unfold fmap in Hj. by rewrite Hj.
Qed.

(** The call on a registry that lists the item in exactly one row. *)
Lemma download_unique_row package name w reg pkg item csv (i : nat) url :
  web w !! registry_url = Some reg ->
  lookup_col "Package" (columns reg) = Some pkg ->
  lookup_col "Item" (columns reg) = Some item ->
  lookup_col "CSV" (columns reg) = Some csv ->
  length (s_values item) = length (s_values csv) ->
  s_values pkg !! i = Some (CStr package) ->
  s_values item !! i = Some (CStr name) ->
  s_values csv !! i = Some (CStr url) ->
  (forall j : nat, s_values pkg !! j = Some (CStr package) ->
                   s_values item !! j = Some (CStr name) -> j = i) ->
  exists info,
    getattr_CSV info = Ok (inl (CStr url)) /\
    download_from_rdatasets package name w
    = (match web w !! url with
       | Some df => Ok (df, info)
       | None => Raise (URLError url)
       end, w).
Proof.
  intros Hweb Hpkg Hitem Hcsv Hlen Hp Hi Hc Huniq.
  destruct (select_unique (s_values pkg) (s_values item) (s_values csv)
              package (CStr name) i (CStr url) Hlen Hp Hi Hc Huniq) as [Hidx Hurl].
  cbv zeta in Hidx, Hurl.
  set (mask := (fun c => CBool (cell_eq_str package c)) <$> s_values pkg) in *.
  set (idx := select mask (s_values item)) in *.
  set (hit := (fun l => CBool (bool_decide (l = CStr name))) <$> idx) in *.
  set (datasets := {| index := idx;
                      columns := filter (fun c => c.1 ≠ "Item")
                                   (columns (loc_mask reg (eq_str pkg package))) |}).
  assert (Hds : getitem reg "Package"
                ≫= (fun p => set_index "Item" (loc_mask reg (eq_str p package)))
                = Ok datasets).
  { rewrite (proj2 (getitem_Ok _ _ _) Hpkg), bind_Ok_eq. unfold set_index.
    rewrite (proj2 (getitem_Ok _ "Item"
      (mkSeries (s_dtype item) (select (s_values (eq_str pkg package)) (s_values item))))).
    - reflexivity.
    - by rewrite lookup_loc_mask, Hitem. }
  set (rows := loc_mask datasets (mkSeries bool_ hit)).
  set (info := LocRow ((fun c : string * Series =>
                          (c.1, default CNone (head (s_values c.2))))
                       <$> columns rows)).
  assert (Hinfo : loc_label datasets (CStr name) = Ok info).
  { unfold loc_label. change (index datasets) with idx. fold hit. fold rows.
    change (index rows) with (select hit idx). by rewrite Hidx. }
  assert (Hattr : getattr_CSV info = Ok (inl (CStr url))).
  { unfold getattr_CSV, info.
    destruct (row_entry (fun s => default CNone (head (s_values s))) "CSV"
                (columns rows)
                (mkSeries (s_dtype csv) (select hit (select mask (s_values csv)))))
      as [j ->].
    - unfold rows. rewrite lookup_loc_mask. unfold datasets. cbn [columns].
      rewrite lookup_col_filter_ne, decide_False by done.
      by rewrite lookup_loc_mask, Hcsv.
    - cbn [s_values]. by rewrite Hurl. }
  exists info. split; [done|].
  unfold download_from_rdatasets.
  rewrite stateT_bind_eq. cbn [read_csv]. rewrite Hweb.
  rewrite stateT_bind_eq. unfold lift at 1. rewrite Hds.
  rewrite bool_decide_eq_true_2.
  2:{ apply (registry_index _ _ _ _ _ Hpkg Hitem Hds). by exists i. }
  cbn [negb]. rewrite stateT_bind_eq. unfold lift at 1. rewrite Hinfo.
  rewrite stateT_bind_eq. unfold lift at 1. rewrite Hattr.
  rewrite stateT_bind_eq. cbn [read_csv].
  by destruct (web w !! url).
Qed.

(** X10.  When the registry lists the item under the package in one row,
    and that row's CSV entry is a string, [download_from_rdatasets] reads
    the table served at that URL and returns it with the row; when the URL
    is not served the fetch error comes out.  The state is untouched. *)
Theorem download_listed package name w reg pkg item csv (i : nat) url :
  web w !! registry_url = Some reg ->
  lookup_col "Package" (columns reg) = Some pkg ->
  lookup_col "Item" (columns reg) = Some item ->
  lookup_col "CSV" (columns reg) = Some csv ->
  length (s_values item) = length (s_values csv) ->
  s_values pkg !! i = Some (CStr package) ->
  s_values item !! i = Some (CStr name) ->
  s_values csv !! i = Some (CStr url) ->
  (forall j : nat, s_values pkg !! j = Some (CStr package) ->
                   s_values item !! j = Some (CStr name) -> j = i) ->
  exists info,
    getattr_CSV info = Ok (inl (CStr url)) /\
    download_from_rdatasets package name w
    = (match web w !! url with
       | Some df => Ok (df, info)
       | None => Raise (URLError url)
       end, w).
Proof. apply (download_unique_row package name w reg pkg item csv i url). Qed.

Lemma download_listed_witness :
  exists info,
    download_from_rdatasets "survival" "flchain" world_serving
    = (Ok (flchain_sample, info), world_serving).
Proof.
  destruct (download_listed "survival" "flchain" world_serving registry_sample
              (mkSeries object_ [CStr "survival"; CStr "boot"; CStr "survival"])
              (mkSeries object_ [CStr "flchain"; CStr "acme"; CStr "nwtco"])
              (mkSeries object_ [CStr "https://example.org/csv/survival/flchain.csv";
                                 CStr "https://example.org/csv/boot/acme.csv";
                                 CStr "https://example.org/csv/survival/nwtco.csv"])
              0%nat "https://example.org/csv/survival/flchain.csv")
    as (info & _ & Heq); try reflexivity.
  - intros [|[|[|j]]] Hp Hi; try reflexivity; by vm_compute in Hp, Hi.
  - exists info. rewrite Heq. reflexivity.
Defined.

(** ** What the download writes *)

Lemma reads_only_bind {S A B : Type} (m : stateT S A) (f : A -> stateT S B) :
  reads_only m -> (forall a, reads_only (f a)) -> reads_only (m ≫= f).
Proof.
  intros Hm Hf s. rewrite stateT_bind_eq. specialize (Hm s).
  destruct (m s) as [[a|e] s']; simpl in Hm; subst; [apply Hf | done].
Qed.

Lemma reads_only_lift {S A : Type} (r : result A) : reads_only (lift (S := S) r).
Proof. by intros s. Qed.

Lemma reads_only_read_csv x : reads_only (read_csv x).
Proof. intros w. by destruct x as [[]|]. Qed.

Lemma download_from_rdatasets_state package name w :
  (download_from_rdatasets package name w).2 = w.
Proof.
  revert w. change (reads_only (download_from_rdatasets package name)).
  unfold download_from_rdatasets.
  apply reads_only_bind; [apply reads_only_read_csv|]. intros reg.
  apply reads_only_bind; [apply reads_only_lift|]. intros datasets.
  destruct (negb _); [by intros w|].
  apply reads_only_bind; [apply reads_only_lift|]. intros info.
  apply reads_only_bind; [apply reads_only_lift|]. intros url.
  apply reads_only_bind; [apply reads_only_read_csv|]. by intros df w.
Qed.

(** X11.  [download_from_rdatasets] only reads: whatever the registry, the
    web and the arguments, and however the call ends, the cache files and
    the loader are as before. *)
Theorem download_reads_only package name :
  reads_only (download_from_rdatasets package name).
Proof. intros w. apply download_from_rdatasets_state. Qed.





(** ** The values of the processed nwtco table *)

(** X14.  Processing nwtco drops no row and changes no datum of the
    columns it keeps: the index is the raw index, and a kept raw column
    other than 'stage' (and not overwritten by a derived column) holds,
    row by row, the float32 cast of its raw values, which for an integer
    of absolute value up to 2^24 (a relapse time, an event flag, an age) is
    that integer. *)
Theorem nwtco_processed_values `{PyFloat} raw out :
  NoDup (column_names raw) ->
  _Nwtco.read_df true raw = Ok out ->
  index out = index raw /\
  forall name s,
    lookup_col name (columns raw) = Some s ->
    name ∉ ["Unnamed: 0"; "seqno"; "instit"; "histol"; "study";
            "stage"; "instit_2"; "histol_2"; "study_4"] ->
    exists s',
      lookup_col name (columns out) = Some s' /\
      s_dtype s' = float32 /\
      Forall2 (fun v v' =>
                 cell_to_float32 v = Ok v' /\
                 forall z, v = CInt z -> Z.abs z <= 2 ^ 24 ->
                           exists f, v' = CFloat f /\ float_to_Z f = Some z)
              (s_values s) (s_values s').
Proof.
  intros Hnd Hrun.
  destruct (nwtco_read_df_spec raw out Hnd Hrun)
    as (instit & histol & study & stage & instit_2 & histol_2 & study_4
        & _ & _ & _ & _ & _ & _ & _ & Hidx & Hnames & Hcols).
  split; [done|]. intros name s Hs Hname.
  rewrite !not_elem_of_cons in Hname.
  destruct Hname as (N1 & N2 & N3 & N4 & N5 & N6 & N7 & N8 & N9 & _).
  assert (Hin : is_Some (lookup_col name (columns out))).
  { apply lookup_col_is_Some, Hnames. split.
    - rewrite !not_elem_of_cons. repeat split; try done. apply not_elem_of_nil.
    - right. apply lookup_col_is_Some. by eexists. }
  destruct Hin as [s' Hs']. exists s'. split; [done|].
  specialize (Hcols _ _ Hs'). rewrite decide_False in Hcols by done.
  destruct Hcols as (s0 & Hsrc & Hcast). unfold nwtco_source in Hsrc.
  rewrite !decide_False in Hsrc by done. rewrite Hs in Hsrc. injection Hsrc as <-.
  apply astype_float32_Ok in Hcast as [Hdt Hvs]. split; [done|].
  apply mapM_Ok in Hvs. eapply Forall2_impl; [apply Hvs|].
  intros v v' Hv. split; [done|]. intros z -> Hz.
  simpl in Hv. injection Hv as <-. eexists. split; [done|].
  by apply f32_of_Z_exact.
Qed.

Lemma nwtco_processed_values_witness :
  index nwtco_sample_processed = index nwtco_sample /\
  exists edrel,
    lookup_col "edrel" (columns nwtco_sample_processed) = Some edrel /\
    float_to_Z <$> (s_values edrel ≫= fun v => match v with
                                               | CFloat f => [f]
                                               | _ => []
                                               end)
    = [Some 6075; Some 4121].
Proof.
  destruct (nwtco_processed_values (H := no_literal)
              nwtco_sample nwtco_sample_processed) as [Hidx Hcols].
  - by_decide.
  - vm_compute. reflexivity.
  - split; [done|].
    destruct (Hcols "edrel" (mkSeries int64 [CInt 6075; CInt 4121]))
      as (s' & Hs' & _); [reflexivity | by_decide |].
    exists s'. split; [done|]. vm_compute in Hs'. by injection Hs' as <-.
Defined.

Lemma numeric_castable `{PyFloat} v : numeric v -> castable v.
Proof. destruct v; try done; intros _; by eexists. Qed.

Lemma mapM_sub_numeric dt k vs :
  Forall numeric vs ->
  exists vs', mapM (cell_sub dt k) vs = Ok vs' /\ Forall numeric vs'.
Proof.
  induction 1 as [|v vs Hv _ (vs' & IH & Hnum)]; [by exists []|].
  destruct v as [z|f|b|s|]; try done; simpl; rewrite IH; simpl;
    eexists; (split; [reflexivity|]); by constructor.
Qed.

Lemma sub_scalar_numeric s k :
  s_dtype s <> category -> Forall numeric (s_values s) ->
  exists s', sub_scalar s k = Ok s' /\ Forall numeric (s_values s').
Proof.
  intros Hdt Hnum. unfold sub_scalar.
  destruct (s_dtype s) eqn:E; try done;
    destruct (mapM_sub_numeric (s_dtype s) k _ Hnum) as (vs' & Hvs & Hn);
    rewrite E in Hvs; rewrite Hvs; simpl; by eexists.
Qed.

(** X15.  The processed nwtco read returns on every table with distinct
    column labels that has the six columns the transform names, whose
    instit, histol and study columns are not categorical, and whose cells
    outside 'Unnamed: 0', 'seqno' and 'stage' are numbers; the table may be
    empty. *)
Theorem nwtco_returns `{PyFloat} raw :
  NoDup (column_names raw) ->
  required Nwtco ⊆ column_names raw ->
  (forall name s, lookup_col name (columns raw) = Some s ->
                  name ∈ ["instit"; "histol"; "study"] -> s_dtype s <> category) ->
  (forall name s, lookup_col name (columns raw) = Some s ->
                  name ∉ ["Unnamed: 0"; "seqno"; "stage"] ->
                  Forall numeric (s_values s)) ->
  exists out, _Nwtco.read_df true raw = Ok out.
Proof.
  intros Hnd Hreq Hdt Hnum.
  assert (Hhas : forall lbl, lbl ∈ required Nwtco ->
                             is_Some (lookup_col lbl (columns raw))).
  { intros lbl Hl. by apply lookup_col_is_Some, Hreq. }
  destruct (Hhas "instit") as [instit Hinstit]; [by_decide|].
  destruct (Hhas "histol") as [histol Hhistol]; [by_decide|].
  destruct (Hhas "study") as [study Hstudy]; [by_decide|].
  destruct (Hhas "stage") as [stage Hstage]; [by_decide|].
  destruct (sub_scalar_numeric instit 1) as (instit_2 & Hi2 & Hn1);
    [apply (Hdt "instit"); [done | by_decide]
    |apply (Hnum "instit"); [done | by_decide] |].
  destruct (sub_scalar_numeric histol 1) as (histol_2 & Hh2 & Hn2);
    [apply (Hdt "histol"); [done | by_decide]
    |apply (Hnum "histol"); [done | by_decide] |].
  destruct (sub_scalar_numeric study 3) as (study_4 & Hs4 & Hn3);
    [apply (Hdt "study"); [done | by_decide]
    |apply (Hnum "study"); [done | by_decide] |].
  unfold _Nwtco.read_df.
  rewrite (proj2 (getitem_Ok raw "instit" instit) Hinstit), bind_Ok_eq. cbv beta.
  rewrite Hi2, bind_Ok_eq. cbv beta.
  rewrite (proj2 (getitem_Ok raw "histol" histol) Hhistol), bind_Ok_eq. cbv beta.
  rewrite Hh2, bind_Ok_eq. cbv beta.
  rewrite (proj2 (getitem_Ok raw "study" study) Hstudy), bind_Ok_eq. cbv beta.
  rewrite Hs4, bind_Ok_eq. cbv beta.
  rewrite (proj2 (getitem_Ok raw "stage" stage) Hstage), !bind_Ok_eq. cbv beta.
  unfold assign. cbn [for_each fst snd]. rewrite !bind_Ok_eq. cbv beta.
  set (df1 := setitem _ "stage" _).
  assert (Hcols1 : forall name,
    lookup_col name (columns df1)
    = if decide (name = "stage") then Some (astype_category stage)
      else nwtco_source raw instit_2 histol_2 study_4 name).
  { intros name. unfold df1, nwtco_source. by rewrite !lookup_setitem. }
  assert (Hnames1 : forall name,
    name ∈ column_names raw -> name ∈ column_names df1).
  { intros name Hn. unfold df1. rewrite !elem_of_names_setitem. tauto. }
  assert (Hnd1 : NoDup (column_names df1)) by (by do 4 apply NoDup_setitem).
  clearbody df1.
  rewrite drop_present.
  2:{ intros lbl Hl. apply Hnames1, Hreq. revert Hl. unfold required.
      rewrite !elem_of_cons, !elem_of_nil. tauto. }
  rewrite bind_Ok_eq. cbv beta.
  unfold column_names at 1. cbn [columns]. rewrite names_filter.
  rewrite index_drop_present.
  2:{ intros lbl ->%list_elem_of_singleton. apply list_elem_of_filter.
      split; [by_decide|]. apply Hnames1, Hreq. by_decide. }
  rewrite bind_Ok_eq. cbv beta.
  destruct (for_each_cast_column_returns astype_float32
    (filter (fun n => n ∉ ["stage"])
       (filter (fun n => n ∉ ["Unnamed: 0"; "seqno"; "instit"; "histol"; "study"])
          (column_names df1)))
    {| index := index df1;
       columns := filter (fun c => c.1 ∉ ["Unnamed: 0"; "seqno"; "instit"; "histol"; "study"])
                         (columns df1) |}) as [df3 Hdf3].
  { by do 2 apply NoDup_filter. }
  { intros col [Hnst [Hndr Hcol]%list_elem_of_filter]%list_elem_of_filter.
    cbn [columns]. rewrite lookup_col_filter, decide_False by done.
    rewrite Hcols1, decide_False by (intros ->; apply Hnst; by_decide).
    apply lookup_col_is_Some in Hcol as [s1 Hs1].
    rewrite Hcols1, decide_False in Hs1 by (intros ->; apply Hnst; by_decide).
    rewrite Hs1.
    assert (Hn : Forall numeric (s_values s1)).
    { unfold nwtco_source in Hs1.
      destruct (decide (col = "study_4")); [by injection Hs1 as <-|].
      destruct (decide (col = "histol_2")); [by injection Hs1 as <-|].
      destruct (decide (col = "instit_2")); [by injection Hs1 as <-|].
      apply (Hnum col s1 Hs1). rewrite !not_elem_of_cons.
      repeat split; try apply not_elem_of_nil.
      - intros ->. apply Hndr. by_decide.
      - intros ->. apply Hndr. by_decide.
      - intros ->. apply Hnst. by_decide. }
    assert (Hc : Forall castable (s_values s1)).
    { eapply Forall_impl; [apply Hn | apply @numeric_castable]. }
    apply mapM_castable in Hc as [vs' Hvs'].
    eexists _, _. split; [done|]. unfold astype_float32. by rewrite Hvs'. }
  unfold cast_float32. unfold column_names in Hdf3. rewrite Hdf3. by eexists.
Qed.

Lemma nwtco_returns_witness :
  exists out, @_Nwtco.read_df no_literal true nwtco_large = Ok out.
Proof.
  apply (nwtco_returns (H := no_literal) nwtco_large).
  - by_decide.
  - by_decide.
  - intros name s Hs Hname. apply lookup_col_elem_of in Hs.
    apply list_elem_of_In in Hs. simpl in Hs.
    repeat (destruct Hs as [[= <- <-]|Hs]; [discriminate|]). destruct Hs.
  - intros name s Hs Hname. apply lookup_col_elem_of in Hs.
    apply list_elem_of_In in Hs. simpl in Hs.
    repeat (destruct Hs as [[= <- <-]|Hs]; [repeat constructor|]). destruct Hs.
Defined.

(** ** A registry that lists the item twice *)

Lemma select_hit_nonempty (idx : list cell) L :
  L ∈ idx ->
  exists a rest,
    select ((fun l => CBool (bool_decide (l = L))) <$> idx) idx = a :: rest.
Proof.
  induction idx as [|l idx IH]; [by intros ?%elem_of_nil|].
  intros Hin. rewrite fmap_cons.
  destruct (decide (l = L)) as [->|Hne].
  - rewrite bool_decide_eq_true_2, select_cons_true by done. by eexists _, _.
  - rewrite bool_decide_eq_false_2, select_cons_false by done.
    apply elem_of_cons in Hin as [->|Hin]; [done | by apply IH].
Qed.

Lemma select_twice (ps items : list cell) package L (i j : nat) :
  (i < j)%nat ->
  ps !! i = Some (CStr package) -> items !! i = Some L ->
  ps !! j = Some (CStr package) -> items !! j = Some L ->
  let mask := (fun c => CBool (cell_eq_str package c)) <$> ps in
  let hit := (fun l => CBool (bool_decide (l = L))) <$> select mask items in
  exists a b rest, select hit (select mask items) = a :: b :: rest.
Proof.
  revert items i j.
  induction ps as [|p ps IH]; intros items i j Hij Hpi Hi Hpj Hj; [done|].
  destruct items as [|it items]; [done|].
  destruct j as [|j]; [lia|]. cbv zeta. rewrite fmap_cons.
  destruct (cell_eq_str package p) eqn:Ep.
  - rewrite !select_cons_true, fmap_cons.
    destruct i as [|i].
    + injection Hi as ->. rewrite bool_decide_eq_true_2, select_cons_true by done.
      destruct (select_hit_nonempty
                  (select ((fun c => CBool (cell_eq_str package c)) <$> ps) items) L)
        as (a & rest & ->); [|by eexists _, _, _].
      apply elem_of_select. exists j. split; [|done].
      rewrite list_lookup_fmap. simpl in Hpj. rewrite Hpj. simpl.
      by rewrite bool_decide_eq_true_2.
    + destruct (IH items i j) as (a & b & rest & Hsel); try done; [lia|].
      cbv zeta in Hsel.
      destruct (decide (it = L)) as [->|Hne].
      * rewrite bool_decide_eq_true_2, select_cons_true, Hsel by done.
        by eexists _, _, _.
      * rewrite bool_decide_eq_false_2, select_cons_false, Hsel by done.
        by eexists _, _, _.
  - rewrite !select_cons_false.
    destruct i as [|i].
    { simpl in Hpi. injection Hpi as ->. simpl in Ep.
      by rewrite bool_decide_eq_true_2 in Ep. }
    apply (IH items i j); try done. lia.
Qed.

(** X16.  When the registry lists the item under the package in two rows,
    [datasets.loc[name]] is a frame and not a row, [info.CSV] is a column,
    and the call raises the [ValueError] of [pd.read_csv] instead of
    picking one of the rows; nothing is fetched or written. *)
Theorem download_listed_twice package name w reg pkg item csv (i j : nat) :
  web w !! registry_url = Some reg ->
  lookup_col "Package" (columns reg) = Some pkg ->
  lookup_col "Item" (columns reg) = Some item ->
  lookup_col "CSV" (columns reg) = Some csv ->
  (i < j)%nat ->
  s_values pkg !! i = Some (CStr package) ->
  s_values item !! i = Some (CStr name) ->
  s_values pkg !! j = Some (CStr package) ->
  s_values item !! j = Some (CStr name) ->
  exists msg,
    download_from_rdatasets package name w = (Raise (ValueError msg), w).
Proof.
  intros Hweb Hpkg Hitem Hcsv Hij Hpi Hi Hpj Hj.
  destruct (select_twice (s_values pkg) (s_values item) package (CStr name) i j
              Hij Hpi Hi Hpj Hj) as (a & b & rest & Hidx).
  cbv zeta in Hidx.
  set (mask := (fun c => CBool (cell_eq_str package c)) <$> s_values pkg) in *.
  set (idx := select mask (s_values item)) in *.
  set (hit := (fun l => CBool (bool_decide (l = CStr name))) <$> idx) in *.
  set (datasets := {| index := idx;
                      columns := filter (fun c => c.1 ≠ "Item")
                                   (columns (loc_mask reg (eq_str pkg package))) |}).
  assert (Hds : getitem reg "Package"
                ≫= (fun p => set_index "Item" (loc_mask reg (eq_str p package)))
                = Ok datasets).
  { rewrite (proj2 (getitem_Ok _ _ _) Hpkg), bind_Ok_eq. unfold set_index.
    rewrite (proj2 (getitem_Ok _ "Item"
      (mkSeries (s_dtype item) (select (s_values (eq_str pkg package)) (s_values item))))).
    - reflexivity.
    - by rewrite lookup_loc_mask, Hitem. }
  set (rows := loc_mask datasets (mkSeries bool_ hit)).
  assert (Hinfo : loc_label datasets (CStr name) = Ok (LocFrame rows)).
  { unfold loc_label. change (index datasets) with idx. fold hit. fold rows.
    change (index rows) with (select hit idx). by rewrite Hidx. }
  assert (Hattr : exists s, getattr_CSV (LocFrame rows) = Ok (inr s)).
  { unfold getattr_CSV, rows. rewrite lookup_loc_mask. unfold datasets.
    cbn [columns]. rewrite lookup_col_filter_ne, decide_False by done.
    rewrite lookup_loc_mask, Hcsv. by eexists. }
  destruct Hattr as [s Hattr]. eexists.
  unfold download_from_rdatasets.
  rewrite stateT_bind_eq. cbn [read_csv]. rewrite Hweb.
  rewrite stateT_bind_eq. unfold lift at 1. rewrite Hds.
  rewrite bool_decide_eq_true_2.
  2:{ apply (registry_index _ _ _ _ _ Hpkg Hitem Hds). by exists i. }
  cbn [negb]. rewrite stateT_bind_eq. unfold lift at 1. rewrite Hinfo.
  rewrite stateT_bind_eq. unfold lift at 1. rewrite Hattr.
  rewrite stateT_bind_eq. cbn [read_csv]. reflexivity.
Qed.

Lemma download_listed_twice_witness :
  exists msg,
    download_from_rdatasets "survival" "flchain" world_twice
    = (Raise (ValueError msg), world_twice).
Proof.
  apply (download_listed_twice "survival" "flchain" world_twice registry_twice
           (mkSeries object_ [CStr "survival"; CStr "survival"])
           (mkSeries object_ [CStr "flchain"; CStr "flchain"])
           (mkSeries object_ [CStr "https://example.org/csv/survival/flchain.csv";
                              CStr "https://example.org/csv/survival/flchain2.csv"])
           0%nat 1%nat); try reflexivity.
  lia.
Defined.

(** ** The downloads of gbsg and rotterdam *)


